(** * pip/locations.py: where pip looks for configs, builds and installs

    A shallow embedding of [pip/locations.py] and of the parts of the Python
    standard library it calls ([os.path], [os.mkdir], [open], [pwd], the
    distutils install command), followed by the properties of the module
    that are stated about it.

    Layout:
    - Python strings and the string methods the module uses;
    - [posixpath] and [ntpath], the two implementations of [os.path];
    - the world the module runs in (interpreter attributes, file system,
      process identity) and the monad of world-changing, raising
      computations;
    - the functions of [locations.py], in source order;
    - lemmas and theorems. *)

From Stdlib Require Import Ascii String List ZArith Lia Bool.
From stdpp Require Import base option strings gmap.

Local Open Scope string_scope.

(** ** Python strings *)

Module Str.

(** [s.startswith(pre)] *)
Fixpoint startswith (s pre : string) {struct pre} : bool :=
  match pre with
  | EmptyString => true
  | String a pre' =>
      match s with
      | EmptyString => false
      | String b s' => Ascii.eqb a b && startswith s' pre'
      end
  end.

Fixpoint last_char (s : string) : option ascii :=
  match s with
  | EmptyString => None
  | String c EmptyString => Some c
  | String _ s' => last_char s'
  end.

Definition first_char (s : string) : option ascii :=
  match s with
  | EmptyString => None
  | String c _ => Some c
  end.

Definition endswith_char (s : string) (c : ascii) : bool :=
  match last_char s with
  | Some d => Ascii.eqb d c
  | None => false
  end.

Definition char_in (c : ascii) (cs : list ascii) : bool :=
  existsb (Ascii.eqb c) cs.

(** [s[n:]] *)
Fixpoint drop (n : nat) (s : string) : string :=
  match n, s with
  | O, _ => s
  | S _, EmptyString => EmptyString
  | S n', String _ s' => drop n' s'
  end.

(** [s[:n]] *)
Fixpoint take (n : nat) (s : string) : string :=
  match n, s with
  | O, _ => EmptyString
  | S _, EmptyString => EmptyString
  | S n', String c s' => String c (take n' s')
  end.

(** [s[i:j]] for [0 <= i <= j] *)
Definition slice (i j : nat) (s : string) : string := take (j - i) (drop i s).

(** [s.replace(a, b)] for one-character [a] and [b] *)
Fixpoint replace (a b : ascii) (s : string) : string :=
  match s with
  | EmptyString => EmptyString
  | String c s' =>
      String (if Ascii.eqb c a then b else c) (replace a b s')
  end.

(** [s.lstrip(cs)] *)
Fixpoint lstrip (cs : list ascii) (s : string) : string :=
  match s with
  | EmptyString => EmptyString
  | String d s' => if char_in d cs then lstrip cs s' else s
  end.

(** [s.split(c)]: never empty, [''.split(c) = ['']] *)
Fixpoint split (c : ascii) (s : string) : list string :=
  match s with
  | EmptyString => [EmptyString]
  | String d s' =>
      if Ascii.eqb d c then EmptyString :: split c s'
      else match split c s' with
           | w :: ws => String d w :: ws
           | [] => [String d EmptyString]
           end
  end.

(** [c.join(l)] *)
Fixpoint join (c : ascii) (l : list string) : string :=
  match l with
  | [] => EmptyString
  | [w] => w
  | w :: ws => w ++ String c (join c ws)
  end.

(** [c * n] *)
Fixpoint repeat (c : ascii) (n : nat) : string :=
  match n with
  | O => EmptyString
  | S n' => String c (repeat c n')
  end.

(** [p[:i], p[i:]] where [i] is the index just after the last character
    of [p] that is one of [cs] (0 when there is none) *)
Fixpoint rcut (cs : list ascii) (s : string) : string * string :=
  match s with
  | EmptyString => (EmptyString, EmptyString)
  | String d s' =>
      let '(h, t) := rcut cs s' in
      if char_in d cs then (String d h, t)
      else match h with
           | EmptyString => (EmptyString, String d t)
           | _ => (String d h, t)
           end
  end.

(** [s.rstrip(cs)] *)
Fixpoint rstrip (cs : list ascii) (s : string) : string :=
  match s with
  | EmptyString => EmptyString
  | String d s' =>
      match rstrip cs s' with
      | EmptyString => if char_in d cs then EmptyString
                       else String d EmptyString
      | r => String d r
      end
  end.

Definition all_char (c : ascii) (s : string) : bool :=
  String.eqb s (repeat c (String.length s)).

Definition is_empty (s : string) : bool :=
  match s with EmptyString => true | _ => false end.

End Str.

(** ** Exceptions and results *)

Inductive exn :=
  | OSError
  | IOError
  | KeyError
  | RuntimeError
  | AttributeError
  | DistutilsError (msg : string)
  | InstallationError (msg : string)
  | SystemExit (msg : string).

Inductive result (A : Type) :=
  | Ok (a : A)
  | Raise (e : exn).
Arguments Ok {A} a.
Arguments Raise {A} e.

#[export] Instance exn_eq_dec : EqDecision exn.
Proof. solve_decision. Defined.

(** ** The file system

    A finite map from canonical paths (absolute, normalized, no symbolic
    link in the directory part) to what is stored there. *)

Definition uid := Z.
Bind Scope Z_scope with uid.

Inductive node :=
  | Dir (owner : uid)
  | File (owner : uid) (content : string)
  | Symlink (owner : uid) (target : string).

#[export] Instance node_eq_dec : EqDecision node.
Proof. solve_decision. Defined.

Abbreviation filesystem := (gmap string node).

(** [sys.getrecursionlimit()] *)
Definition recursion_limit : nat := 1000.

(** ** posixpath *)

Module posixpath.

Definition isabs (s : string) : bool := Str.startswith s "/".

(** one round of the loop of [join(a, *p)] *)
Definition join (path b : string) : string :=
  if Str.startswith b "/" then b
  else if Str.is_empty path || Str.endswith_char path "/" then path ++ b
  else path ++ "/" ++ b.

Definition split (p : string) : string * string :=
  let '(head, tail) := Str.rcut ["/"%char] p in
  if negb (Str.is_empty head) && negb (Str.all_char "/" head)
  then (Str.rstrip ["/"%char] head, tail)
  else (head, tail).

Definition dirname (p : string) : string := fst (split p).

Definition initial_slashes (path : string) : nat :=
  if Str.startswith path "/" then
    if Str.startswith path "//" && negb (Str.startswith path "///")
    then 2 else 1
  else 0.

(** the body of the loop over [comps] in [normpath] *)
Definition norm_step (slashes : nat) (new_comps : list string)
    (comp : string) : list string :=
  if String.eqb comp "" || String.eqb comp "." then new_comps
  else if negb (String.eqb comp "..")
          || (Nat.eqb slashes 0 && Nat.eqb (length new_comps) 0)
          || (negb (Nat.eqb (length new_comps) 0)
              && String.eqb (List.last new_comps "") "..")
  then new_comps ++ [comp]
  else if negb (Nat.eqb (length new_comps) 0) then removelast new_comps
  else new_comps.

Definition normpath (path : string) : string :=
  if Str.is_empty path then "." else
  let slashes := initial_slashes path in
  let comps := fold_left (norm_step slashes) (Str.split "/" path) [] in
  let path' := Str.repeat "/" slashes ++ Str.join "/" comps in
  if Str.is_empty path' then "." else path'.

(** [cwd] is the outcome of [os.getcwd()], [None] when it raises *)
Definition abspath (cwd : option string) (path : string) : result string :=
  if isabs path then Ok (normpath path)
  else match cwd with
       | Some c => Ok (normpath (join c path))
       | None => Raise OSError
       end.

Definition lstat (fs : filesystem) (cwd : option string) (p : string)
    : option node :=
  match abspath cwd p with
  | Ok k => fs !! k
  | Raise _ => None
  end.

Definition islink (fs : filesystem) (cwd : option string) (p : string)
    : bool :=
  match lstat fs cwd p with
  | Some (Symlink _ _) => true
  | _ => false
  end.

Definition readlink (fs : filesystem) (cwd : option string) (p : string)
    : string :=
  match lstat fs cwd p with
  | Some (Symlink _ t) => t
  | _ => ""
  end.

(** [_joinrealpath(path, rest, seen)].  [seen] is one dictionary shared
    by all the recursive calls, so it is threaded through and returned.
    The recursion on link targets is cut by the interpreter's recursion
    limit; the [while rest] loop is the inner [walk]. *)
Fixpoint _joinrealpath (depth : nat) (fs : filesystem) (cwd : option string)
    (path rest : string) (seen : gmap string (option string))
    {struct depth}
    : result (string * bool * gmap string (option string)) :=
  match depth with
  | O => Raise RuntimeError
  | S depth' =>
      let fix walk (comps : list string) (path : string)
              (seen : gmap string (option string)) {struct comps} :=
        match comps with
        | [] => Ok (path, true, seen)
        | name :: rest' =>
            if String.eqb name "" || String.eqb name "." then
              walk rest' path seen
            else if String.eqb name ".." then
              if negb (Str.is_empty path) then
                let '(path', name') := split path in
                if String.eqb name' ".."
                then walk rest' (join (join path' "..") "..") seen
                else walk rest' path' seen
              else walk rest' ".." seen
            else
              let newpath := join path name in
              if negb (islink fs cwd newpath) then walk rest' newpath seen
              else
                match seen !! newpath with
                | Some (Some resolved) => walk rest' resolved seen
                | Some None =>
                    Ok (join newpath (Str.join "/" rest'), false, seen)
                | None =>
                    match _joinrealpath depth' fs cwd path
                            (readlink fs cwd newpath)
                            (<[newpath := None]> seen) with
                    | Raise e => Raise e
                    | Ok (path', false, seen') =>
                        Ok (join path' (Str.join "/" rest'), false, seen')
                    | Ok (path', true, seen') =>
                        walk rest' path' (<[newpath := Some path']> seen')
                    end
                end
        end
      in
      if isabs rest
      then walk (Str.split "/" (Str.drop 1 rest)) "/" seen
      else walk (Str.split "/" rest) path seen
  end.

Definition realpath (fs : filesystem) (cwd : option string)
    (filename : string) : result string :=
  match _joinrealpath recursion_limit fs cwd "" filename ∅ with
  | Ok (path, _, _) => abspath cwd path
  | Raise e => Raise e
  end.

End posixpath.

(** ** ntpath

    The module as of Python 2.7: drive letters are split off by
    [splitdrive], [islink] is always false and [realpath] is [abspath].
    [abspath] is the portable definition of the module (join with the
    current directory, then [normpath]). *)

Module ntpath.

Definition seps : list ascii := ["/"%char; "\"%char].

Definition starts_with_sep (s : string) : bool :=
  match Str.first_char s with
  | Some c => Str.char_in c seps
  | None => false
  end.

Definition ends_with_sep (s : string) : bool :=
  match Str.last_char s with
  | Some c => Str.char_in c seps
  | None => false
  end.

(** [p[1:2] == ':'] *)
Definition has_drive (p : string) : bool :=
  String.eqb (Str.slice 1 2 p) ":".

Definition splitdrive (p : string) : string * string :=
  if has_drive p then (Str.slice 0 2 p, Str.drop 2 p) else ("", p).

Definition isabs (s : string) : bool :=
  let s := snd (splitdrive s) in
  negb (Str.is_empty s) && starts_with_sep s.

(** one round of the loop of [join(a, *p)] *)
Definition join (path b : string) : string :=
  let b_wins :=
    if Str.is_empty path then true
    else if isabs b then
      if negb (has_drive path) || has_drive b then true
      else if (3 <? String.length path)%nat
              || ((String.length path =? 3)%nat
                  && negb (ends_with_sep path))
      then true
      else false
    else false in
  if b_wins then b
  else if ends_with_sep path then
    if negb (Str.is_empty b) && starts_with_sep b
    then path ++ Str.drop 1 b
    else path ++ b
  else if Str.endswith_char path ":" then path ++ b
  else if negb (Str.is_empty b) then
    if starts_with_sep b then path ++ b else path ++ "\" ++ b
  else path ++ "\".

Definition split (p : string) : string * string :=
  let '(d, p) := splitdrive p in
  let '(head, tail) := Str.rcut seps p in
  let head2 := Str.rstrip seps head in
  (d ++ (if Str.is_empty head2 then head else head2), tail).

Definition dirname (p : string) : string := fst (split p).

(** the [while i < len(comps)] loop of [normpath]: [kept] is
    [comps[:i]], the components already passed *)
Definition norm_step (prefix : string) (kept : list string)
    (comp : string) : list string :=
  if String.eqb comp "." || String.eqb comp "" then kept
  else if String.eqb comp ".." then
    if negb (Nat.eqb (length kept) 0)
       && negb (String.eqb (List.last kept "") "..")
    then removelast kept
    else if Nat.eqb (length kept) 0 && Str.endswith_char prefix "\"
    then kept
    else kept ++ [comp]
  else kept ++ [comp].

Definition normpath (path : string) : string :=
  if Str.startswith path "\\.\" || Str.startswith path "\\?\"
  then path else
  let path := Str.replace "/" "\" path in
  let '(prefix, path) := splitdrive path in
  let '(prefix, path) :=
    if Str.is_empty prefix then
      let rest := Str.lstrip ["\"%char] path in
      (Str.take (String.length path - String.length rest) path, rest)
    else if Str.startswith path "\"
    then (prefix ++ "\", Str.lstrip ["\"%char] path)
    else (prefix, path) in
  let comps := fold_left (norm_step prefix) (Str.split "\" path) [] in
  let comps :=
    if Str.is_empty prefix && Nat.eqb (length comps) 0 then ["."]
    else comps in
  prefix ++ Str.join "\" comps.

Definition abspath (cwd : option string) (path : string) : result string :=
  if isabs path then Ok (normpath path)
  else match cwd with
       | Some c => Ok (normpath (join c path))
       | None => Raise OSError
       end.

Definition realpath (fs : filesystem) (cwd : option string)
    (path : string) : result string :=
  abspath cwd path.

End ntpath.

(** ** os.path: one of the two, chosen by the platform *)

Record path_module := {
  pm_isabs : string -> bool;
  pm_join : string -> string -> string;
  pm_split : string -> string * string;
  pm_normpath : string -> string;
  pm_abspath : option string -> string -> result string;
  pm_realpath : filesystem -> option string -> string -> result string
}.

Definition posix_module : path_module := {|
  pm_isabs := posixpath.isabs;
  pm_join := posixpath.join;
  pm_split := posixpath.split;
  pm_normpath := posixpath.normpath;
  pm_abspath := posixpath.abspath;
  pm_realpath := posixpath.realpath
|}.

Definition nt_module : path_module := {|
  pm_isabs := ntpath.isabs;
  pm_join := ntpath.join;
  pm_split := ntpath.split;
  pm_normpath := ntpath.normpath;
  pm_abspath := ntpath.abspath;
  pm_realpath := ntpath.realpath
|}.


(** ** Python values that are not strings *)

Inductive pyval :=
  | PyNone
  | PyBool (b : bool)
  | PyInt (n : Z)
  | PyStr (s : string).

#[export] Instance pyval_eq_dec : EqDecision pyval.
Proof. solve_decision. Defined.

(** truth value of [v] in a condition *)
Definition truthy (v : pyval) : bool :=
  match v with
  | PyNone => false
  | PyBool b => b
  | PyInt n => negb (n =? 0)%Z
  | PyStr s => negb (Str.is_empty s)
  end.

(** [a or b] *)
Definition py_or (a b : pyval) : pyval := if truthy a then a else b.

(** ** The world the module runs in *)

Record World := {
  (** [pip.compat.WINDOWS] *)
  WINDOWS : bool;
  (** [sys.prefix], [sys.real_prefix] and [sys.base_prefix] (the last two
      are attributes an interpreter may lack), [sys.version],
      [sys.platform] *)
  sys_prefix : string;
  sys_real_prefix : option string;
  sys_base_prefix : option string;
  sys_version : string;
  sys_platform : string;
  (** [site.__file__], [site.USER_SITE], [sysconfig.get_python_lib()] *)
  site_file : string;
  site_USER_SITE : string;
  python_lib : string;
  (** [os.path.expanduser('~')], [tempfile.gettempdir()], [os.getcwd()]
      ([None]: the directory is gone and the call raises [OSError]) *)
  home_dir : string;
  tempdir : string;
  cwd : option string;
  (** [os.geteuid()], [getpass.getuser()], the password database *)
  euid : uid;
  login_name : string;
  passwd : gmap Z string;
  (** [pip.appdirs.user_cache_dir('pip')], [pip.appdirs.site_config_dirs('pip')] *)
  appdirs_user_cache_dir : string;
  appdirs_site_config_dirs : list string;
  (** whether [IOError] is [OSError] (PEP 3151, Python 3.3 and later) *)
  io_error_is_os_error : bool;
  (** the file system; the canonical paths at which the system refuses to
      create an entry (permissions, quota, read-only mount) *)
  fs : filesystem;
  denied : gset string;
  (** lines printed so far *)
  stdout : list string
}.

Definition os_path (w : World) : path_module :=
  if WINDOWS w then nt_module else posix_module.

Definition set_fs (f : filesystem) (w : World) : World :=
  {| WINDOWS := WINDOWS w; sys_prefix := sys_prefix w;
     sys_real_prefix := sys_real_prefix w;
     sys_base_prefix := sys_base_prefix w; sys_version := sys_version w;
     sys_platform := sys_platform w; site_file := site_file w;
     site_USER_SITE := site_USER_SITE w; python_lib := python_lib w;
     home_dir := home_dir w; tempdir := tempdir w; cwd := cwd w;
     euid := euid w; login_name := login_name w; passwd := passwd w;
     appdirs_user_cache_dir := appdirs_user_cache_dir w;
     appdirs_site_config_dirs := appdirs_site_config_dirs w;
     io_error_is_os_error := io_error_is_os_error w;
     fs := f; denied := denied w; stdout := stdout w |}.

Definition set_stdout (out : list string) (w : World) : World :=
  {| WINDOWS := WINDOWS w; sys_prefix := sys_prefix w;
     sys_real_prefix := sys_real_prefix w;
     sys_base_prefix := sys_base_prefix w; sys_version := sys_version w;
     sys_platform := sys_platform w; site_file := site_file w;
     site_USER_SITE := site_USER_SITE w; python_lib := python_lib w;
     home_dir := home_dir w; tempdir := tempdir w; cwd := cwd w;
     euid := euid w; login_name := login_name w; passwd := passwd w;
     appdirs_user_cache_dir := appdirs_user_cache_dir w;
     appdirs_site_config_dirs := appdirs_site_config_dirs w;
     io_error_is_os_error := io_error_is_os_error w;
     fs := fs w; denied := denied w; stdout := out |}.

(** ** Computations: they read and change the world, and return or raise *)

Definition M (A : Type) : Type := World -> result A * World.

#[export] Instance M_ret : MRet M := fun A a w => (Ok a, w).

#[export] Instance M_bind : MBind M := fun A B f m w =>
  match m w with
  | (Ok a, w') => f a w'
  | (Raise e, w') => (Raise e, w')
  end.

Definition raise {A} (e : exn) : M A := fun w => (Raise e, w).

(** a value read off the world *)
Definition gets {A} (f : World -> A) : M A := fun w => (Ok (f w), w).

(** a read that may raise *)
Definition reads {A} (f : World -> result A) : M A := fun w => (f w, w).

(** [try: body  except <handled>: handler] *)
Definition try_except {A} (body : M A) (handled : World -> exn -> bool)
    (handler : M A) : M A := fun w =>
  match body w with
  | (Ok a, w') => (Ok a, w')
  | (Raise e, w') => if handled w' e then handler w' else (Raise e, w')
  end.

(** [isinstance(e, OSError)] *)
Definition is_OSError (w : World) (e : exn) : bool :=
  match e with
  | OSError => true
  | IOError => io_error_is_os_error w
  | _ => false
  end.

(** ** The operating system *)

(** The canonical path of [p] when its last component is not followed. *)
Definition lstat_key (w : World) (p : string) : result string :=
  let '(head, tail) := pm_split (os_path w) p in
  match pm_realpath (os_path w) (fs w) (cwd w) head with
  | Ok rhead => Ok (pm_normpath (os_path w) (pm_join (os_path w) rhead tail))
  | Raise e => Raise e
  end.

(** What [os.lstat(p)] finds. *)
Definition lstat (w : World) (p : string) : option node :=
  match lstat_key w p with
  | Ok k => fs w !! k
  | Raise _ => None
  end.

(** What [os.stat(p)] finds: links are followed, a link left over (a loop)
    is an error. *)
Definition stat (w : World) (p : string) : option node :=
  match pm_realpath (os_path w) (fs w) (cwd w) p with
  | Ok k =>
      match fs w !! k with
      | Some (Symlink _ _) => None
      | r => r
      end
  | Raise _ => None
  end.

Definition os_path_exists (w : World) (p : string) : bool :=
  match stat w p with
  | Some _ => true
  | None => false
  end.

Definition os_path_isfile (w : World) (p : string) : bool :=
  match stat w p with
  | Some (File _ _) => true
  | _ => false
  end.

Definition os_path_join (w : World) (a : string) (ps : list string) : string :=
  fold_left (pm_join (os_path w)) ps a.

Definition os_path_dirname (w : World) (p : string) : string :=
  fst (pm_split (os_path w) p).

Definition os_path_abspath (w : World) (p : string) : result string :=
  pm_abspath (os_path w) (cwd w) p.

Definition os_path_realpath (w : World) (p : string) : result string :=
  pm_realpath (os_path w) (fs w) (cwd w) p.

Definition os_getcwd (w : World) : result string :=
  match cwd w with
  | Some c => Ok c
  | None => Raise OSError
  end.

(** [os.mkdir(p)]: fails when something is already at [p] (also a dangling
    link), when the parent is not a directory, or when the system refuses;
    otherwise a directory owned by the caller appears. *)
Definition os_mkdir (p : string) : M unit := fun w =>
  match lstat_key w p with
  | Raise _ => (Raise OSError, w)
  | Ok k =>
      match fs w !! k with
      | Some _ => (Raise OSError, w)
      | None =>
          match stat w (os_path_dirname w k) with
          | Some (Dir _) =>
              if decide (k ∈ denied w) then (Raise OSError, w)
              else (Ok tt, set_fs (<[k := Dir (euid w)]> (fs w)) w)
          | _ => (Raise OSError, w)
          end
      end
  end.

(** [fp = open(p, 'w'); fp.write(content); fp.close()] *)
Definition write_file (p content : string) : M unit := fun w =>
  match os_path_realpath w p with
  | Raise _ => (Raise IOError, w)
  | Ok k =>
      match stat w (os_path_dirname w k) with
      | Some (Dir _) =>
          if decide (k ∈ denied w) then (Raise IOError, w)
          else match fs w !! k with
               | Some (File o _) =>
                   (Ok tt, set_fs (<[k := File o content]> (fs w)) w)
               | None =>
                   (Ok tt, set_fs (<[k := File (euid w) content]> (fs w)) w)
               | Some _ => (Raise IOError, w)
               end
      | _ => (Raise IOError, w)
      end
  end.

Definition print (line : string) : M unit := fun w =>
  (Ok tt, set_stdout (stdout w ++ [line]) w).

(** [pwd.getpwuid(u).pw_name] *)
Definition getpwuid_name (u : uid) : M string := fun w =>
  match passwd w !! u with
  | Some name => (Ok name, w)
  | None => (Raise KeyError, w)
  end.

(** Modelled from the spec: [pip.compat.get_path_uid] is imported, not
    defined, by this file.  It fetches the owner uid of the path itself and
    raises [OSError] for a symbolic link or a path that cannot be opened. *)
Definition get_path_uid (p : string) : M uid := fun w =>
  match lstat w p with
  | Some (Dir o) | Some (File o _) => (Ok o, w)
  | Some (Symlink _ _) | None => (Raise OSError, w)
  end.

(** ** pip/locations.py *)

Definition CA_BUNDLE_PATHS : list string := [
  "/etc/ssl/certs/ca-certificates.crt";
  "/etc/pki/tls/certs/ca-bundle.crt";
  "/etc/ssl/ca-bundle.pem";
  "/etc/ssl/cert.pem";
  "/usr/local/share/certs/ca-root-nss.crt";
  "/usr/local/etc/openssl/cert.pem"
].

Definition DELETE_MARKER_MESSAGE : string :=
"This file is placed here by pip to indicate the source was put
here by pip.

Once this package is successfully installed this source code will be
deleted (unless you remove this file).
".

Definition PIP_DELETE_MARKER_FILENAME : string := "pip-delete-this-directory.txt".

Definition write_delete_marker_file (directory : string) : M unit :=
  filepath ← gets (fun w => os_path_join w directory [PIP_DELETE_MARKER_FILENAME]);
  write_file filepath DELETE_MARKER_MESSAGE.

(** [hasattr(sys, 'real_prefix')] *)
Definition has_real_prefix (w : World) : bool :=
  match sys_real_prefix w with
  | Some _ => true
  | None => false
  end.

(** [getattr(sys, "base_prefix", sys.prefix)] *)
Definition base_prefix (w : World) : string :=
  default (sys_prefix w) (sys_base_prefix w).

Definition running_under_virtualenv (w : World) : bool :=
  if has_real_prefix w then true
  else if negb (String.eqb (sys_prefix w) (base_prefix w)) then true
  else false.

(** The function has one [return], [return True]; when its condition
    fails the body ends and the call yields [None]. *)
Definition virtualenv_no_global : M pyval :=
  site_abs ← reads (fun w => os_path_abspath w (site_file w));
  site_mod_dir ← gets (fun w => os_path_dirname w site_abs);
  no_global_file ←
    gets (fun w => os_path_join w site_mod_dir ["no-global-site-packages.txt"]);
  venv ← gets running_under_virtualenv;
  if venv : bool then
    is_file ← gets (fun w => os_path_isfile w no_global_file);
    if is_file : bool then mret (PyBool true) else mret PyNone
  else mret PyNone.

Definition __get_username : M string :=
  windows ← gets WINDOWS;
  if windows : bool then gets login_name
  else
    me ← gets euid;
    getpwuid_name me.

Definition not_owned_msg (path : string) : string :=
  "The temporary folder for building (" ++ path ++
  ") is either not owned by you, or is a symlink.".

(** the [path] of [_get_build_prefix] (lines 114-117) *)
Definition build_prefix_path : M string :=
  tmp ← gets tempdir;
  username ← __get_username;
  gets (fun w =>
    os_path_join w tmp ["pip_build_" ++ Str.replace " " "_" username]).

Definition _get_build_prefix : M string :=
  path ← build_prefix_path;
  windows ← gets WINDOWS;
  if windows : bool then mret path
  else
    try_except
      (os_mkdir path;;
       write_delete_marker_file path)
      is_OSError
      (file_uid ← try_except
                    (u ← get_path_uid path; mret (Some u))
                    is_OSError
                    (mret None);
       me ← gets euid;
       if decide (file_uid ≠ Some me) then
         print (not_owned_msg path);;
         print ("pip will not work until the temporary folder is either " ++
                "deleted or is a real directory owned by your user account.");;
         raise (InstallationError (not_owned_msg path))
       else mret tt);;
    mret path.

(** The names the module binds when it is imported. *)
Record locations := {
  CA_BUNDLE_PATH : option string;
  USER_CACHE_DIR : string;
  build_prefix : string;
  src_prefix : string;
  site_packages : string;
  user_site : string;
  user_dir : string;
  bin_py : string;
  bin_user : string;
  default_storage_dir : string;
  default_config_basename : string;
  default_config_file : string;
  default_log_file : string;
  site_config_files : list string
}.

(** [build_prefix] and [src_prefix] before they are normalized
    (lines 146-161) *)
Definition raw_prefixes : M (string * string) :=
  venv ← gets running_under_virtualenv;
  if venv : bool then
    b ← gets (fun w => os_path_join w (sys_prefix w) ["build"]);
    s ← gets (fun w => os_path_join w (sys_prefix w) ["src"]);
    mret (b, s)
  else
    b ← _get_build_prefix;
    s ← try_except
          (c ← reads os_getcwd;
           gets (fun w => os_path_join w c ["src"]))
          is_OSError
          (raise (SystemExit
             "The folder you are executing pip from can no longer be found."));
    mret (b, s).

(** lines 166-167 *)
Definition normalize_prefixes (raw : string * string) : M (string * string) :=
  real ← reads (fun w => os_path_realpath w (fst raw));
  b ← reads (fun w => os_path_abspath w real);
  s ← reads (fun w => os_path_abspath w (snd raw));
  mret (b, s).

(** [bin_py], [bin_user], [default_storage_dir], [default_config_basename],
    [default_config_file], [default_log_file] (lines 174-203) *)
Definition platform_paths (w : World)
    : string * string * string * string * string * string :=
  let user_site := site_USER_SITE w in
  let user_dir := home_dir w in
  if WINDOWS w then
    let bin_py := os_path_join w (sys_prefix w) ["Scripts"] in
    let bin_user := os_path_join w user_site ["Scripts"] in
    let '(bin_py, bin_user) :=
      if negb (os_path_exists w bin_py)
      then (os_path_join w (sys_prefix w) ["bin"],
            os_path_join w user_site ["bin"])
      else (bin_py, bin_user) in
    let default_storage_dir := os_path_join w user_dir ["pip"] in
    let default_config_basename := "pip.ini" in
    (bin_py, bin_user, default_storage_dir, default_config_basename,
     os_path_join w default_storage_dir [default_config_basename],
     os_path_join w default_storage_dir ["pip.log"])
  else
    let bin_py := os_path_join w (sys_prefix w) ["bin"] in
    let bin_user := os_path_join w user_site ["bin"] in
    let default_storage_dir := os_path_join w user_dir [".pip"] in
    let default_config_basename := "pip.conf" in
    let default_config_file :=
      os_path_join w default_storage_dir [default_config_basename] in
    let default_log_file := os_path_join w default_storage_dir ["pip.log"] in
    let '(bin_py, default_log_file) :=
      if String.eqb (Str.take 6 (sys_platform w)) "darwin"
         && String.eqb (Str.take 16 (sys_prefix w)) "/System/Library/"
      then ("/usr/local/bin", os_path_join w user_dir ["Library/Logs/pip.log"])
      else (bin_py, default_log_file) in
    (bin_py, bin_user, default_storage_dir, default_config_basename,
     default_config_file, default_log_file).

(** Importing the module: the statements at its top level, in order. *)
Definition module_init : M locations :=
  ca ← gets (fun w => List.find (os_path_exists w) CA_BUNDLE_PATHS);
  cache ← gets appdirs_user_cache_dir;
  raw ← raw_prefixes;
  prefixes ← normalize_prefixes raw;
  site_packages ← gets python_lib;
  user_site ← gets site_USER_SITE;
  user_dir ← gets home_dir;
  '(bin_py, bin_user, storage, basename, config, log) ← gets platform_paths;
  config_dirs ← gets appdirs_site_config_dirs;
  site_config ← gets (fun w =>
    List.map (fun path => os_path_join w path [basename]) config_dirs);
  mret {| CA_BUNDLE_PATH := ca; USER_CACHE_DIR := cache;
          build_prefix := fst prefixes; src_prefix := snd prefixes;
          site_packages := site_packages; user_site := user_site;
          user_dir := user_dir; bin_py := bin_py; bin_user := bin_user;
          default_storage_dir := storage;
          default_config_basename := basename;
          default_config_file := config; default_log_file := log;
          site_config_files := site_config |}.

(** *** distutils_scheme *)

(** The attributes of a distutils [install] command object that
    [distutils_scheme] writes or reads. *)
Record install_command := {
  (** [i.distribution.get_name()] *)
  i_name : string;
  i_user : pyval;
  i_home : pyval;
  i_root : pyval;
  install_lib : pyval;
  install_purelib : pyval;
  install_platlib : pyval;
  install_headers : pyval;
  install_scripts : pyval;
  install_data : pyval
}.

(** [getattr(i, name)] *)
Definition getattr (i : install_command) (name : string) : result pyval :=
  if String.eqb name "install_lib" then Ok (install_lib i)
  else if String.eqb name "install_purelib" then Ok (install_purelib i)
  else if String.eqb name "install_platlib" then Ok (install_platlib i)
  else if String.eqb name "install_headers" then Ok (install_headers i)
  else if String.eqb name "install_scripts" then Ok (install_scripts i)
  else if String.eqb name "install_data" then Ok (install_data i)
  else if String.eqb name "user" then Ok (i_user i)
  else if String.eqb name "home" then Ok (i_home i)
  else if String.eqb name "root" then Ok (i_root i)
  else Raise AttributeError.

Definition set_overrides (user home root : pyval) (i : install_command)
    : install_command :=
  {| i_name := i_name i;
     i_user := py_or user (i_user i);
     i_home := py_or home (i_home i);
     i_root := py_or root (i_root i);
     install_lib := install_lib i;
     install_purelib := install_purelib i;
     install_platlib := install_platlib i;
     install_headers := install_headers i;
     install_scripts := install_scripts i;
     install_data := install_data i |}.

(** Modelled from the spec: [distutils.command.install.SCHEME_KEYS] is
    imported, not defined, by this file; the base scheme has the roles
    purelib, platlib, headers, scripts and data. *)
Definition SCHEME_KEYS : list string :=
  ["purelib"; "platlib"; "headers"; "scripts"; "data"].

(** an optional string argument as a Python value *)
Definition of_opt (o : option string) : pyval :=
  match o with
  | Some s => PyStr s
  | None => PyNone
  end.

Section distutils_scheme.

(** The distutils collaborator: [new_install dist_name] is
    [d = Distribution({'name': dist_name}); d.parse_config_files();
     d.get_command_obj('install', create=True)], and [finalize_options i]
    is [i.finalize_options()], which may create directories and may
    raise. *)
Variable new_install : string -> M install_command.
Variable finalize_options : install_command -> M install_command.

(** [for key in SCHEME_KEYS: scheme[key] = getattr(i, 'install_' + key)] *)
Fixpoint fill_scheme (i : install_command) (keys : list string)
    (scheme : gmap string pyval) : result (gmap string pyval) :=
  match keys with
  | [] => Ok scheme
  | key :: keys' =>
      match getattr i ("install_" ++ key) with
      | Ok v => fill_scheme i keys' (<[key := v]> scheme)
      | Raise e => Raise e
      end
  end.

(** the venv headers directory (lines 236-242) *)
Definition venv_headers (w : World) (dist_name : string) : string :=
  os_path_join w (sys_prefix w)
    ["include"; "site"; "python" ++ Str.take 3 (sys_version w); dist_name].

Definition distutils_scheme (dist_name : string) (user : bool)
    (home root : option string) : M (gmap string pyval) :=
  i ← new_install dist_name;
  i ← finalize_options
        (set_overrides (PyBool user) (of_opt home) (of_opt root) i);
  scheme ← reads (fun _ => fill_scheme i SCHEME_KEYS ∅);
  let scheme :=
    if decide (install_lib i ≠ PyNone)
    then <["platlib" := install_lib i]>
           (<["purelib" := install_lib i]> scheme)
    else scheme in
  venv ← gets running_under_virtualenv;
  if venv : bool then
    headers ← gets (fun w => venv_headers w dist_name);
    let scheme := <["headers" := PyStr headers]> scheme in
    match root with
    | Some r =>
        abs ← reads (fun w => os_path_abspath w headers);
        rooted ← gets (fun w => os_path_join w r [Str.drop 1 abs]);
        mret (<["headers" := PyStr rooted]> scheme)
    | None => mret scheme
    end
  else mret scheme.

End distutils_scheme.

(** ** Vocabulary of the statements *)

(** [path] as [build_prefix_path] computes it from a user name *)
Definition build_dir (w : World) (username : string) : string :=
  os_path_join w (tempdir w) ["pip_build_" ++ Str.replace " " "_" username].

(** What is at the path is not a directory or file of the current
    effective uid; the owner of a symbolic link is not looked up. *)
Definition not_owned (w : World) (n : node) : Prop :=
  match n with
  | Dir o | File o _ => o <> euid w
  | Symlink _ _ => True
  end.

(** where [write_delete_marker_file directory] writes *)
Definition marker_path (w : World) (directory : string) : string :=
  os_path_join w directory [PIP_DELETE_MARKER_FILENAME].

(** [os.getcwd()], when it returns, returns an absolute path *)
Definition cwd_absolute (w : World) : Prop :=
  forall c, cwd w = Some c -> pm_isabs (os_path w) c = true.

(** the scheme after the loop over [SCHEME_KEYS] *)
Definition base_scheme (i : install_command) : gmap string pyval :=
  <["data" := install_data i]>
    (<["scripts" := install_scripts i]>
       (<["headers" := install_headers i]>
          (<["platlib" := install_platlib i]>
             (<["purelib" := install_purelib i]> ∅)))).

(** and after [install_lib] has taken precedence (lines 231-233) *)
Definition lib_scheme (i : install_command) : gmap string pyval :=
  if decide (install_lib i ≠ PyNone)
  then <["platlib" := install_lib i]>
         (<["purelib" := install_lib i]> (base_scheme i))
  else base_scheme i.

Definition scheme_roles : gset string :=
  {[ "purelib"; "platlib"; "headers"; "scripts"; "data" ]}.

(** the entry for [key] of a returned scheme *)
Definition scheme_entry (key : string)
    (r : result (gmap string pyval) * World) : option pyval :=
  match fst r with
  | Ok scheme => scheme !! key
  | Raise _ => None
  end.

(** an ntpath path that starts with a drive letter, a colon and a
    separator *)
Definition drive_absolute (p : string) : bool :=
  ntpath.has_drive p && ntpath.starts_with_sep (Str.drop 2 p).

(** The directories the interpreter and the system hand to the module are
    absolute: the working directory under posixpath; [sys.prefix], the
    temp directory and the working directory, each with its drive, under
    ntpath. *)
Definition absolute_roots (w : World) : Prop :=
  if WINDOWS w then
    drive_absolute (sys_prefix w) = true /\
    drive_absolute (tempdir w) = true /\
    (forall c, cwd w = Some c -> drive_absolute c = true)
  else cwd_absolute w.

(** [w'] is [w] but for the file system and the printed lines *)
Definition frame (w w' : World) : Prop :=
  exists f out, w' = set_stdout out (set_fs f w).

(** [m] changes nothing but the file system and the printed lines *)
Definition framed {A} (m : M A) : Prop :=
  forall w r w', m w = (r, w') -> frame w w'.

(** where a link points, for what is found at a path *)
Definition link_target (o : option node) : option string :=
  match o with
  | Some (Symlink _ t) => Some t
  | _ => None
  end.

(** two file systems with the same symbolic links *)
Definition same_links (fs1 fs2 : filesystem) : Prop :=
  forall k, link_target (fs1 !! k) = link_target (fs2 !! k).

(** the second line [_get_build_prefix] prints before it raises *)
Definition not_owned_hint : string :=
  "pip will not work until the temporary folder is either " ++
  "deleted or is a real directory owned by your user account.".

(** the [except OSError] branch of [_get_build_prefix] (lines 125-143) *)
Definition owner_check (path : string) : M unit :=
  file_uid ← try_except
                (u ← get_path_uid path; mret (Some u))
                is_OSError
                (mret None);
  me ← gets euid;
  if decide (file_uid ≠ Some me) then
    print (not_owned_msg path);;
    print not_owned_hint;;
    raise (InstallationError (not_owned_msg path))
  else mret tt.

(** The ways a call of [_get_build_prefix] can go off Windows, once the
    path is known: the result and the world it leaves. *)
Inductive build_prefix_outcome (w : World) (path : string)
    : result string -> World -> Prop :=
  | reuse_own :
      os_mkdir path w = (Raise OSError, w) ->
      get_path_uid path w = (Ok (euid w), w) ->
      build_prefix_outcome w path (Ok path) w
  | reject_foreign :
      os_mkdir path w = (Raise OSError, w) ->
      get_path_uid path w <> (Ok (euid w), w) ->
      build_prefix_outcome w path
        (Raise (InstallationError (not_owned_msg path)))
        (set_stdout (stdout w ++ [not_owned_msg path; not_owned_hint]) w)
  | fresh_with_marker wm w2 :
      os_mkdir path w = (Ok tt, wm) ->
      write_delete_marker_file path wm = (Ok tt, w2) ->
      build_prefix_outcome w path (Ok path) w2
  | fresh_marker_error wm :
      os_mkdir path w = (Ok tt, wm) ->
      write_delete_marker_file path wm = (Raise IOError, wm) ->
      io_error_is_os_error w = false ->
      build_prefix_outcome w path (Raise IOError) wm
  | fresh_without_marker wm :
      os_mkdir path w = (Ok tt, wm) ->
      write_delete_marker_file path wm = (Raise IOError, wm) ->
      io_error_is_os_error w = true ->
      build_prefix_outcome w path (Ok path) wm.

(** ** Sample worlds and a sample distutils

    Concrete environments on which the definitions above are run. *)

Definition sample_world (windows : bool) (prefix : string)
    (real base : option string) (tmp : string) (dir : option string)
    (me : uid) (f : filesystem) : World :=
  {| WINDOWS := windows;
     sys_prefix := prefix;
     sys_real_prefix := real;
     sys_base_prefix := base;
     sys_version := "2.7.6 (default, Mar 22 2014, 22:59:56)";
     sys_platform := if windows then "win32" else "linux2";
     site_file :=
       if windows then "C:\Python27\Lib\site.pyc"
       else "/usr/lib/python2.7/site.pyc";
     site_USER_SITE :=
       if windows then "C:\Users\alice\AppData\Roaming\Python\Python27\site-packages"
       else "/home/alice/.local/lib/python2.7/site-packages";
     python_lib :=
       if windows then "C:\Python27\Lib\site-packages"
       else "/usr/lib/python2.7/dist-packages";
     home_dir := if windows then "C:\Users\alice" else "/home/alice";
     tempdir := tmp;
     cwd := dir;
     euid := me;
     login_name := "alice liddell";
     passwd := {[ 0%Z := "root"; 1000%Z := "alice liddell"; 1001%Z := "bob" ]};
     appdirs_user_cache_dir :=
       if windows then "C:\Users\alice\AppData\Local\pip\Cache"
       else "/home/alice/.cache/pip";
     appdirs_site_config_dirs :=
       if windows then ["C:\ProgramData\pip"] else ["/etc/xdg/pip"; "/etc"];
     io_error_is_os_error := false;
     fs := f;
     denied := ∅;
     stdout := [] |}.

(** a Linux machine: [/tmp] is a real directory *)
Definition linux_fs : filesystem :=
  {[ "/" := Dir 0; "/tmp" := Dir 0; "/home" := Dir 0;
     "/home/alice" := Dir 1000; "/home/alice/project" := Dir 1000;
     "/usr" := Dir 0 ]}.

(** [/tmp] is a link into [/private], as on Mac OS X, and a virtualenv
    was made below it *)
Definition symlinked_tmp_fs : filesystem :=
  {[ "/" := Dir 0; "/private" := Dir 0; "/private/tmp" := Dir 0;
     "/tmp" := Symlink 0 "private/tmp";
     "/private/tmp/venv" := Dir 1000 ]}.

Definition windows_fs : filesystem :=
  {[ "C:\" := Dir 0; "C:\Temp" := Dir 0; "C:\venv" := Dir 0;
     "C:\Python27" := Dir 0 ]}.

(** alice on Linux, outside any virtualenv *)
Definition linux_world (f : filesystem) : World :=
  sample_world false "/usr" None None "/tmp" (Some "/home/alice/project")
    1000 f.

(** alice on Linux, in a virtualenv at [prefix] *)
Definition linux_venv_world (prefix : string) (f : filesystem) : World :=
  sample_world false prefix (Some "/usr") None "/tmp"
    (Some "/home/alice/project") 1000 f.

(** alice on Windows; [real] is set inside a virtualenv *)
Definition windows_world (prefix : string) (real : option string)
    (f : filesystem) : World :=
  sample_world true prefix real None "C:\Temp" (Some "C:\Users\alice")
    1000 f.

(** A stand-in for the distutils install command: a fresh command has
    nothing set; finalizing refuses [user] together with [home] and
    otherwise lays the scheme out below one base directory. *)
Definition sample_new_install (dist_name : string) : M install_command :=
  mret {| i_name := dist_name; i_user := PyInt 0; i_home := PyNone;
          i_root := PyNone; install_lib := PyNone; install_purelib := PyNone;
          install_platlib := PyNone; install_headers := PyNone;
          install_scripts := PyNone; install_data := PyNone |}.

Definition sample_finalize_options (i : install_command) : M install_command :=
  fun w =>
  if truthy (i_user i) && truthy (i_home i) then
    (Raise (DistutilsError
       "can't combine user with prefix, exec_prefix/home, or install_(plat)base"),
     w)
  else
    let base :=
      match i_home i with
      | PyStr h => if Str.is_empty h then sys_prefix w else h
      | _ => if truthy (i_user i) then home_dir w else sys_prefix w
      end in
    let py := "python" ++ Str.take 3 (sys_version w) in
    let lib := os_path_join w base ["lib"; py; "site-packages"] in
    (Ok {| i_name := i_name i; i_user := i_user i; i_home := i_home i;
           i_root := i_root i;
           install_lib := PyStr lib;
           install_purelib := PyStr lib;
           install_platlib := PyStr lib;
           install_headers :=
             PyStr (os_path_join w base ["include"; py; i_name i]);
           install_scripts := PyStr (os_path_join w base ["bin"]);
           install_data := PyStr base |}, w).

(** alice with the system Python of Mac OS X, a framework build *)
Definition mac_framework_world (f : filesystem) : World :=
  {| WINDOWS := false;
     sys_prefix := "/System/Library/Frameworks/Python.framework/Versions/2.7";
     sys_real_prefix := None;
     sys_base_prefix := None;
     sys_version := "2.7.5 (default, Mar  9 2014, 22:15:05)";
     sys_platform := "darwin";
     site_file :=
       "/System/Library/Frameworks/Python.framework/Versions/2.7/lib/python2.7/site.pyc";
     site_USER_SITE := "/Users/alice/Library/Python/2.7/lib/python/site-packages";
     python_lib := "/Library/Python/2.7/site-packages";
     home_dir := "/Users/alice";
     tempdir := "/tmp";
     cwd := Some "/Users/alice";
     euid := 1000;
     login_name := "alice";
     passwd := {[ 1000%Z := "alice" ]};
     appdirs_user_cache_dir := "/Users/alice/Library/Caches/pip";
     appdirs_site_config_dirs := ["/Library/Application Support/pip"];
     io_error_is_os_error := false;
     fs := f;
     denied := ∅;
     stdout := [] |}.

(** a machine with two of the certificate bundles *)
Definition two_bundles_fs : filesystem :=
  <["/etc/ssl/cert.pem" := File 0 "bundle"]>
    (<["/etc/pki/tls/certs/ca-bundle.crt" := File 0 "bundle"]> linux_fs).

(** the install command the sample distutils hands back for [pkg] *)
Definition sample_install (root : pyval) (lib : pyval)
    (headers scripts data : string) : install_command :=
  {| i_name := "pkg"; i_user := PyInt 0; i_home := PyNone; i_root := root;
     install_lib := lib; install_purelib := lib; install_platlib := lib;
     install_headers := PyStr headers; install_scripts := PyStr scripts;
     install_data := PyStr data |}.

(** the mapping [distutils_scheme] returns with the sample distutils, the
    empty one when it raises *)
Definition sample_scheme (user : bool) (home root : option string)
    (w : World) : gmap string pyval :=
  match fst (distutils_scheme sample_new_install sample_finalize_options
               "pkg" user home root w) with
  | Ok scheme => scheme
  | Raise _ => ∅
  end.

(** the install command of the sample distutils for [pkg] before it is
    finalized *)
Definition sample_fresh_install : install_command :=
  {| i_name := "pkg"; i_user := PyInt 0; i_home := PyNone; i_root := PyNone;
     install_lib := PyNone; install_purelib := PyNone;
     install_platlib := PyNone; install_headers := PyNone;
     install_scripts := PyNone; install_data := PyNone |}.

(** * Properties *)

(** ** Running computations *)

Ltac run :=
  unfold mbind, M_bind, mret, M_ret, gets, reads, raise, try_except in *.

(** ** running_under_virtualenv *)

Lemma has_real_prefix_true w :
  has_real_prefix w = true <-> is_Some (sys_real_prefix w).
Proof.
  unfold has_real_prefix. destruct (sys_real_prefix w) as [p|].
  - split; eauto.
  - split; [done | intros [? ?]; done].
Qed.

(** C3. [running_under_virtualenv()] is true whenever the interpreter has
    the legacy [real_prefix] attribute, whatever [sys.prefix] and the base
    prefix are; it is false whenever the attribute is absent and
    [sys.prefix] equals the base prefix
    ([getattr(sys, "base_prefix", sys.prefix)]). *)
Theorem running_under_virtualenv_legacy_marker_and_equal_prefix :
  (forall w : World,
     is_Some (sys_real_prefix w) -> running_under_virtualenv w = true) /\
  (forall w : World,
     sys_real_prefix w = None -> sys_prefix w = base_prefix w ->
     running_under_virtualenv w = false).
Proof.
  split.
  - intros w Hreal. unfold running_under_virtualenv.
    apply has_real_prefix_true in Hreal. by rewrite Hreal.
  - intros w Hnone Heq. unfold running_under_virtualenv, has_real_prefix.
    rewrite Hnone, <- Heq, String.eqb_refl. reflexivity.
Qed.

(** With the marker present the answer is true also when the two prefixes
    coincide; without it and with coinciding prefixes the answer is false. *)
Lemma running_under_virtualenv_witness :
  (sys_prefix (linux_venv_world "/usr" linux_fs)
     = base_prefix (linux_venv_world "/usr" linux_fs) /\
   running_under_virtualenv (linux_venv_world "/usr" linux_fs) = true) /\
  running_under_virtualenv (linux_world linux_fs) = false.
Proof.
  split; [split; [reflexivity |] |].
  - apply (proj1 running_under_virtualenv_legacy_marker_and_equal_prefix).
    simpl. eauto.
  - apply (proj2 running_under_virtualenv_legacy_marker_and_equal_prefix);
      reflexivity.
Defined.

(** The modern check: no marker, different prefixes. *)
Lemma running_under_virtualenv_base_prefix w :
  sys_real_prefix w = None -> sys_prefix w <> base_prefix w ->
  running_under_virtualenv w = true.
Proof.
  intros Hnone Hne. unfold running_under_virtualenv, has_real_prefix.
  rewrite Hnone. destruct (String.eqb_spec (sys_prefix w) (base_prefix w));
    [contradiction | reflexivity].
Qed.

(** ** virtualenv_no_global *)

(** C2 as stated fails: outside a virtualenv the call yields [None], not
    [False]. *)
Lemma virtualenv_no_global_yields_None_not_False :
  running_under_virtualenv (linux_world linux_fs) = false /\
  fst (virtualenv_no_global (linux_world linux_fs)) = Ok PyNone /\
  fst (virtualenv_no_global (linux_world linux_fs)) <> Ok (PyBool false).
Proof. split; [| split]; [reflexivity | reflexivity | discriminate]. Qed.

(** C2, amended.  Outside a virtualenv, [virtualenv_no_global()] returns
    [None]: a value that is false in a condition and is not the boolean
    [False].  This holds for every file system, so whether or not the
    marker file exists, as soon as [site.__file__] can be made absolute
    (the one step that may raise); the world is left as it was. *)
Theorem virtualenv_no_global_outside_virtualenv (w : World) :
  running_under_virtualenv w = false ->
  (exists site_abs, os_path_abspath w (site_file w) = Ok site_abs) ->
  virtualenv_no_global w = (Ok PyNone, w) /\ truthy PyNone = false /\
  PyNone <> PyBool false.
Proof.
  intros Hvenv [site_abs Habs]. split; [| split; [reflexivity | discriminate]].
  unfold virtualenv_no_global. run. by rewrite Habs, Hvenv.
Qed.

Lemma virtualenv_no_global_outside_virtualenv_witness :
  virtualenv_no_global (linux_world linux_fs)
    = (Ok PyNone, linux_world linux_fs) /\
  virtualenv_no_global
    (linux_world
       (<["/usr/lib/python2.7/no-global-site-packages.txt" := File 0 ""]>
          (<["/usr/lib/python2.7" := Dir 0]>
             (<["/usr/lib" := Dir 0]> linux_fs))))
    = (Ok PyNone,
       linux_world
         (<["/usr/lib/python2.7/no-global-site-packages.txt" := File 0 ""]>
            (<["/usr/lib/python2.7" := Dir 0]>
               (<["/usr/lib" := Dir 0]> linux_fs)))).
Proof.
  split.
  - apply (virtualenv_no_global_outside_virtualenv (linux_world linux_fs));
      [reflexivity | by eexists].
  - apply virtualenv_no_global_outside_virtualenv; [reflexivity | by eexists].
Defined.

(** Inside a virtualenv the answer follows the marker file. *)
Lemma virtualenv_no_global_in_virtualenv w site_abs :
  running_under_virtualenv w = true ->
  os_path_abspath w (site_file w) = Ok site_abs ->
  virtualenv_no_global w =
    (Ok (if os_path_isfile w
              (os_path_join w (os_path_dirname w site_abs)
                 ["no-global-site-packages.txt"])
         then PyBool true else PyNone), w).
Proof.
  intros Hvenv Habs. unfold virtualenv_no_global. run.
  rewrite Habs, Hvenv. by destruct (os_path_isfile _ _).
Qed.

(** ** _get_build_prefix *)

Lemma __get_username_world w r w' : __get_username w = (r, w') -> w' = w.
Proof.
  unfold __get_username, getpwuid_name. run.
  destruct (WINDOWS w); [congruence |].
  destruct (passwd w !! euid w); congruence.
Qed.

Lemma build_prefix_path_world w r w' : build_prefix_path w = (r, w') -> w' = w.
Proof.
  unfold build_prefix_path. run.
  destruct (__get_username w) as [[u|e] w1] eqn:Hu;
    apply __get_username_world in Hu; congruence.
Qed.

Lemma build_prefix_path_eq w username :
  __get_username w = (Ok username, w) ->
  build_prefix_path w = (Ok (build_dir w username), w).
Proof. intros Hu. unfold build_prefix_path. run. by rewrite Hu. Qed.

Lemma build_prefix_path_inv w path :
  build_prefix_path w = (Ok path, w) ->
  exists username,
    __get_username w = (Ok username, w) /\ path = build_dir w username.
Proof.
  unfold build_prefix_path. run.
  destruct (__get_username w) as [[u|e] w1] eqn:Hu; [| discriminate].
  pose proof (__get_username_world _ _ _ Hu) as ->.
  intros [= <-]. eauto.
Qed.

Lemma os_mkdir_exists w p n :
  lstat w p = Some n -> os_mkdir p w = (Raise OSError, w).
Proof.
  unfold lstat, os_mkdir. destruct (lstat_key w p) as [k|e]; [| done].
  by intros ->.
Qed.

(** [os.mkdir] either raises [OSError] and changes nothing, or finds
    nothing at the path and puts a directory of the caller there. *)
Lemma os_mkdir_cases w p r w' :
  os_mkdir p w = (r, w') ->
  (r = Raise OSError /\ w' = w) \/
  (r = Ok tt /\ lstat w p = None /\
   exists k, lstat_key w p = Ok k /\
             w' = set_fs (<[k := Dir (euid w)]> (fs w)) w).
Proof.
  unfold os_mkdir, lstat.
  destruct (lstat_key w p) as [k|e]; [| intros [= <- <-]; by left].
  destruct (fs w !! k) eqn:Hk; [intros [= <- <-]; by left |].
  destruct (stat w _) as [[o|o c|o t]|]; try (intros [= <- <-]; by left).
  destruct (decide _); intros [= <- <-]; [by left | right; eauto].
Qed.

Lemma get_path_uid_world p w : snd (get_path_uid p w) = w.
Proof. unfold get_path_uid. by destruct (lstat w p) as [[o|o c|o t]|]. Qed.

Lemma get_path_uid_not_owned w p n :
  lstat w p = Some n -> not_owned w n ->
  get_path_uid p w = (Raise OSError, w) \/
  exists o, o <> euid w /\ get_path_uid p w = (Ok o, w).
Proof.
  unfold get_path_uid. intros -> Hn. destruct n as [o|o c|o t]; eauto.
Qed.




Lemma lstat_set_stdout out w p : lstat (set_stdout out w) p = lstat w p.
Proof. reflexivity. Qed.

(** Off Windows: what [_get_build_prefix] does once [os.mkdir] has raised. *)
Lemma _get_build_prefix_after_failed_mkdir w path :
  WINDOWS w = false ->
  build_prefix_path w = (Ok path, w) ->
  os_mkdir path w = (Raise OSError, w) ->
  _get_build_prefix w = (Ok path, w) \/
  exists out,
    _get_build_prefix w
    = (Raise (InstallationError (not_owned_msg path)), set_stdout out w).
Proof.
  intros Hwin Hpath Hmk. unfold _get_build_prefix. run.
  rewrite Hpath, Hwin, Hmk. simpl.
  pose proof (get_path_uid_world path w) as Hw.
  destruct (get_path_uid path w) as [[o|e] w1] eqn:Hu; simpl in Hw; subst w1.
  - destruct (decide (Some o ≠ Some (euid w))); simpl; eauto.
  - unfold get_path_uid in Hu.
    destruct (lstat w path) as [[o|o c|o t]|]; inversion Hu; subst; simpl;
      eauto.
Qed.



(** On a fresh path the directory and its marker file appear. *)
Example _get_build_prefix_fresh :
  let w' := snd (_get_build_prefix (linux_world linux_fs)) in
  fst (_get_build_prefix (linux_world linux_fs))
    = Ok "/tmp/pip_build_alice_liddell" /\
  lstat w' "/tmp/pip_build_alice_liddell" = Some (Dir 1000) /\
  lstat w' "/tmp/pip_build_alice_liddell/pip-delete-this-directory.txt"
    = Some (File 1000 DELETE_MARKER_MESSAGE).
Proof. vm_compute. done. Qed.

(** When the marker cannot be written after the directory was made, Python 2
    lets the [IOError] through; since Python 3.3 it is an [OSError], the
    owner check passes and the path is returned without a marker. *)
Example _get_build_prefix_marker_refused :
  let w2 :=
    {| WINDOWS := false; sys_prefix := "/usr"; sys_real_prefix := None;
       sys_base_prefix := None; sys_version := "2.7.6"; sys_platform := "linux2";
       site_file := "/usr/lib/python2.7/site.pyc"; site_USER_SITE := "";
       python_lib := ""; home_dir := "/home/alice"; tempdir := "/tmp";
       cwd := Some "/"; euid := 1000; login_name := "alice";
       passwd := {[ 1000%Z := "alice" ]}; appdirs_user_cache_dir := "";
       appdirs_site_config_dirs := []; io_error_is_os_error := false;
       fs := linux_fs;
       denied := {[ "/tmp/pip_build_alice/pip-delete-this-directory.txt" ]};
       stdout := [] |} in
  let w3 :=
    {| WINDOWS := false; sys_prefix := "/usr"; sys_real_prefix := None;
       sys_base_prefix := Some "/usr"; sys_version := "3.4.0";
       sys_platform := "linux";
       site_file := "/usr/lib/python3.4/site.py"; site_USER_SITE := "";
       python_lib := ""; home_dir := "/home/alice"; tempdir := "/tmp";
       cwd := Some "/"; euid := 1000; login_name := "alice";
       passwd := {[ 1000%Z := "alice" ]}; appdirs_user_cache_dir := "";
       appdirs_site_config_dirs := []; io_error_is_os_error := true;
       fs := linux_fs;
       denied := {[ "/tmp/pip_build_alice/pip-delete-this-directory.txt" ]};
       stdout := [] |} in
  fst (_get_build_prefix w2) = Raise IOError /\
  fst (_get_build_prefix w3) = Ok "/tmp/pip_build_alice" /\
  lstat (snd (_get_build_prefix w3))
    "/tmp/pip_build_alice/pip-delete-this-directory.txt" = None.
Proof. vm_compute. done. Qed.

Lemma get_replace (a b : ascii) (s : string) (i : nat) :
  String.get i (Str.replace a b s)
  = (fun c => if Ascii.eqb c a then b else c) <$> String.get i s.
Proof.
  revert i. induction s as [| c s IH]; intros i; [done |].
  destruct i as [| i]; simpl; [done | apply IH].
Qed.

Lemma length_replace (a b : ascii) (s : string) :
  String.length (Str.replace a b s) = String.length s.
Proof. induction s as [| c s IH]; simpl; [done | by rewrite IH]. Qed.

Lemma _get_build_prefix_windows w :
  WINDOWS w = true ->
  _get_build_prefix w = (Ok (build_dir w (login_name w)), w).
Proof.
  intros Hwin. unfold _get_build_prefix, build_prefix_path, __get_username.
  run. by rewrite !Hwin.
Qed.

Lemma _get_build_prefix_returns_path w p w' :
  _get_build_prefix w = (Ok p, w') -> build_prefix_path w = (Ok p, w).
Proof.
  unfold _get_build_prefix. run.
  destruct (build_prefix_path w) as [[path|e] w0] eqn:Hpath; [| done].
  pose proof (build_prefix_path_world _ _ _ Hpath) as ->.
  intros Hrun. repeat case_match; by simplify_eq.
Qed.

(** Under [posixpath] the joined path is the temp directory, a separator
    unless one is already there, and the directory name. *)
Lemma build_dir_posix w username :
  WINDOWS w = false ->
  build_dir w username
  = tempdir w
    ++ (if Str.is_empty (tempdir w) || Str.endswith_char (tempdir w) "/"
        then "" else "/")
    ++ "pip_build_" ++ Str.replace " " "_" username.
Proof.
  intros Hwin. unfold build_dir, os_path_join, os_path. rewrite Hwin.
  cbn [fold_left pm_join posix_module]. unfold posixpath.join.
  change (Str.startswith ("pip_build_" ++ Str.replace " " "_" username) "/")
    with false.
  by destruct (_ || _).
Qed.

(** C4. The path of [_get_build_prefix] is [os.path.join] of the system
    temp directory and ['pip_build_'] followed by the user name in which
    each space has become an underscore (and no other character has
    changed): this is the path the function computes for every user name,
    and the only path it ever returns; on Windows it is returned at once
    and the world is untouched (no directory made, no marker written). *)
Theorem _get_build_prefix_path_shape :
  (forall (w : World) (username : string),
     __get_username w = (Ok username, w) ->
     build_prefix_path w
     = (Ok (os_path_join w (tempdir w)
              ["pip_build_" ++ Str.replace " " "_" username]), w)) /\
  (forall (username : string) (i : nat),
     String.get i (Str.replace " " "_" username)
     = (fun c : ascii => if Ascii.eqb c " " then "_"%char else c)
         <$> String.get i username) /\
  (forall (w : World) (p : string) (w' : World),
     _get_build_prefix w = (Ok p, w') ->
     exists username,
       __get_username w = (Ok username, w) /\
       p = os_path_join w (tempdir w)
             ["pip_build_" ++ Str.replace " " "_" username]) /\
  (forall w : World,
     WINDOWS w = true ->
     __get_username w = (Ok (login_name w), w) /\
     _get_build_prefix w
     = (Ok (os_path_join w (tempdir w)
              ["pip_build_" ++ Str.replace " " "_" (login_name w)]), w)).
Proof.
  split; [| split; [| split]].
  - intros w username Hu. by apply build_prefix_path_eq.
  - intros username i. apply get_replace.
  - intros w p w' Hrun.
    apply _get_build_prefix_returns_path, build_prefix_path_inv in Hrun.
    exact Hrun.
  - intros w Hwin. split; [| by apply _get_build_prefix_windows].
    unfold __get_username. run. by rewrite Hwin.
Qed.

Lemma _get_build_prefix_path_shape_witness :
  build_prefix_path (linux_world linux_fs)
  = (Ok "/tmp/pip_build_alice_liddell", linux_world linux_fs) /\
  (exists username,
     __get_username (linux_world linux_fs)
     = (Ok username, linux_world linux_fs) /\
     "/tmp/pip_build_alice_liddell"
     = os_path_join (linux_world linux_fs) (tempdir (linux_world linux_fs))
         ["pip_build_" ++ Str.replace " " "_" username]) /\
  _get_build_prefix
    (windows_world "C:\Python27" None
       (<["C:\Temp\pip_build_alice_liddell" := Dir 1001]> windows_fs))
  = (Ok "C:\Temp\pip_build_alice_liddell",
     windows_world "C:\Python27" None
       (<["C:\Temp\pip_build_alice_liddell" := Dir 1001]> windows_fs)).
Proof.
  split; [| split].
  - apply (proj1 _get_build_prefix_path_shape (linux_world linux_fs)
             "alice liddell").
    reflexivity.
  - apply (proj1 (proj2 (proj2 _get_build_prefix_path_shape))
             (linux_world linux_fs) "/tmp/pip_build_alice_liddell"
             (snd (_get_build_prefix (linux_world linux_fs)))).
    reflexivity.
  - apply (proj2 (proj2 (proj2 (proj2 _get_build_prefix_path_shape))
             (windows_world "C:\Python27" None
                (<["C:\Temp\pip_build_alice_liddell" := Dir 1001]> windows_fs))
             eq_refl)).
Defined.

(** ** What computations leave alone

    Nothing in the module changes the interpreter, the process identity or
    the working directory: a computation only changes the file system and
    the printed lines. *)

Lemma frame_refl w : frame w w.
Proof. exists (fs w), (stdout w). by destruct w. Qed.

Lemma frame_trans w1 w2 w3 : frame w1 w2 -> frame w2 w3 -> frame w1 w3.
Proof. intros (f & out & ->) (f' & out' & ->). by exists f', out'. Qed.

Lemma frame_set_fs f w : frame w (set_fs f w).
Proof. exists f, (stdout w). by destruct w. Qed.

Lemma frame_set_stdout out w : frame w (set_stdout out w).
Proof. exists (fs w), out. by destruct w. Qed.

Lemma framed_ret {A} (a : A) : framed (mret a).
Proof. intros w r w' [= _ <-]. apply frame_refl. Qed.

Lemma framed_raise {A} (e : exn) : framed (@raise A e).
Proof. intros w r w' [= _ <-]. apply frame_refl. Qed.

Lemma framed_gets {A} (f : World -> A) : framed (gets f).
Proof. intros w r w' [= _ <-]. apply frame_refl. Qed.

Lemma framed_reads {A} (f : World -> result A) : framed (reads f).
Proof. intros w r w' [= _ <-]. apply frame_refl. Qed.

Lemma framed_bind {A B} (m : M A) (k : A -> M B) :
  framed m -> (forall a, framed (k a)) -> framed (m ≫= k).
Proof.
  intros Hm Hk w r w'. run.
  destruct (m w) as [[a|e] w1] eqn:Hrun; specialize (Hm _ _ _ Hrun).
  - intros Hrun'. eapply frame_trans; [exact Hm | by eapply Hk].
  - by intros [= _ <-].
Qed.

Lemma framed_try_except {A} (body handler : M A) handled :
  framed body -> framed handler -> framed (try_except body handled handler).
Proof.
  intros Hb Hh w r w'. run.
  destruct (body w) as [[a|e] w1] eqn:Hrun; specialize (Hb _ _ _ Hrun).
  - by intros [= _ <-].
  - destruct (handled w1 e).
    + intros Hrun'. eapply frame_trans; [exact Hb | by eapply Hh].
    + by intros [= _ <-].
Qed.

Lemma framed_os_mkdir p : framed (os_mkdir p).
Proof.
  intros w r w' Hrun.
  destruct (os_mkdir_cases _ _ _ _ Hrun) as [[_ ->] | (_ & _ & k & _ & ->)].
  - apply frame_refl.
  - apply frame_set_fs.
Qed.

Lemma framed_write_file p content : framed (write_file p content).
Proof.
  intros w r w'. unfold write_file. intros Hrun.
  repeat case_match; simplify_eq;
    first [apply frame_refl | apply frame_set_fs].
Qed.

Lemma framed_print line : framed (print line).
Proof.
  intros w r w' [= _ <-]. apply frame_set_stdout.
Qed.

Lemma framed_get_path_uid p : framed (get_path_uid p).
Proof.
  intros w r w' Hrun. pose proof (get_path_uid_world p w) as Hw.
  rewrite Hrun in Hw. simpl in Hw. subst. apply frame_refl.
Qed.

Lemma framed_getpwuid_name u : framed (getpwuid_name u).
Proof.
  intros w r w'. unfold getpwuid_name.
  destruct (passwd w !! u); intros [= _ <-]; apply frame_refl.
Qed.

Create HintDb framed discriminated.

#[local] Hint Resolve framed_ret framed_raise framed_gets framed_reads
  framed_os_mkdir framed_write_file framed_print framed_get_path_uid
  framed_getpwuid_name : framed.

(** breaks a computation into its steps, each closed by the lemmas above *)
Ltac framed_steps :=
  repeat first
    [ apply framed_bind; [| intros ?]
    | apply framed_try_except
    | match goal with
      | |- framed (if ?c then _ else _) => destruct c
      | |- framed (match ?c with _ => _ end) => destruct c
      end
    | solve [auto with framed] ].

Lemma framed_write_delete_marker_file d : framed (write_delete_marker_file d).
Proof. unfold write_delete_marker_file. framed_steps. Qed.

Lemma framed__get_username : framed __get_username.
Proof. unfold __get_username. framed_steps. Qed.

#[local] Hint Resolve framed_write_delete_marker_file framed__get_username
  : framed.

Lemma framed__get_build_prefix : framed _get_build_prefix.
Proof. unfold _get_build_prefix, build_prefix_path. framed_steps. Qed.

#[local] Hint Resolve framed__get_build_prefix : framed.

Lemma framed_raw_prefixes : framed raw_prefixes.
Proof. unfold raw_prefixes. framed_steps. Qed.

Lemma frame_WINDOWS w w' : frame w w' -> WINDOWS w' = WINDOWS w.
Proof. by intros (f & out & ->). Qed.

(** ** Module initialization *)

Lemma normalize_prefixes_world raw w r w' :
  normalize_prefixes raw w = (r, w') -> w' = w.
Proof.
  unfold normalize_prefixes. run. intros H. repeat case_match; by simplify_eq.
Qed.

Lemma normalize_prefixes_inv raw w b s :
  normalize_prefixes raw w = (Ok (b, s), w) ->
  exists real,
    os_path_realpath w (fst raw) = Ok real /\
    os_path_abspath w real = Ok b /\
    os_path_abspath w (snd raw) = Ok s.
Proof.
  unfold normalize_prefixes. run. intros H.
  destruct (os_path_realpath w (fst raw)) as [real|e]; [| done].
  exists real. repeat case_match; by simplify_eq.
Qed.

(** What a successful import has computed. *)
Lemma module_init_inv w l w' :
  module_init w = (Ok l, w') ->
  exists raw,
    raw_prefixes w = (Ok raw, w') /\
    normalize_prefixes raw w' = (Ok (build_prefix l, src_prefix l), w') /\
    platform_paths w'
    = (bin_py l, bin_user l, default_storage_dir l,
       default_config_basename l, default_config_file l, default_log_file l).
Proof.
  unfold module_init. run.
  destruct (raw_prefixes w) as [[raw|e] w1] eqn:Hraw; [| done].
  destruct (normalize_prefixes raw w1) as [[[b s]|e] w2] eqn:Hnorm; [| done].
  pose proof (normalize_prefixes_world _ _ _ _ Hnorm) as ->.
  destruct (platform_paths w1) as [[[[[? ?] ?] ?] ?] ?] eqn:Hplat.
  intros [= <- <-]. simpl. eauto.
Qed.

Lemma raw_prefixes_windows w r w' :
  WINDOWS w = true -> raw_prefixes w = (r, w') -> w' = w.
Proof.
  intros Hwin. unfold raw_prefixes, os_getcwd. run.
  destruct (running_under_virtualenv w); [by intros [= _ <-] |].
  rewrite (_get_build_prefix_windows _ Hwin).
  destruct (cwd w); simpl; by intros [= _ <-].
Qed.

(** C8. On Windows the pair ([bin_py], [bin_user]) that the module binds
    is the [Scripts] pair (below [sys.prefix] and below [site.USER_SITE])
    when the [Scripts] directory below [sys.prefix] exists, and the [bin]
    pair when it does not. *)
Theorem windows_bin_falls_back_to_bin (w : World) :
  WINDOWS w = true ->
  exists py user storage basename config log,
    platform_paths w = (py, user, storage, basename, config, log) /\
    (py, user)
    = (if os_path_exists w (os_path_join w (sys_prefix w) ["Scripts"])
       then (os_path_join w (sys_prefix w) ["Scripts"],
             os_path_join w (site_USER_SITE w) ["Scripts"])
       else (os_path_join w (sys_prefix w) ["bin"],
             os_path_join w (site_USER_SITE w) ["bin"])) /\
    forall (l : locations) (w' : World),
      module_init w = (Ok l, w') -> bin_py l = py /\ bin_user l = user.
Proof.
  intros Hwin.
  destruct (platform_paths w) as [[[[[py user] storage] basename] config] log]
    eqn:Hplat.
  exists py, user, storage, basename, config, log.
  split; [done |]. split.
  - unfold platform_paths in Hplat. rewrite Hwin in Hplat.
    destruct (os_path_exists w _); simpl in Hplat; by simplify_eq.
  - intros l w' Hinit.
    destruct (module_init_inv _ _ _ Hinit) as (raw & Hraw & _ & Hplat').
    pose proof (raw_prefixes_windows _ _ _ Hwin Hraw) as ->.
    rewrite Hplat in Hplat'. by simplify_eq.
Qed.

Lemma windows_bin_falls_back_to_bin_witness :
  let w := windows_world "C:\venv" (Some "C:\Python27") windows_fs in
  (exists l w',
     module_init w = (Ok l, w') /\
     bin_py l = "C:\venv\bin" /\
     bin_user l
     = "C:\Users\alice\AppData\Roaming\Python\Python27\site-packages\bin") /\
  exists py user storage basename config log,
    platform_paths w = (py, user, storage, basename, config, log) /\
    (py, user)
    = (if os_path_exists w (os_path_join w (sys_prefix w) ["Scripts"])
       then (os_path_join w (sys_prefix w) ["Scripts"],
             os_path_join w (site_USER_SITE w) ["Scripts"])
       else (os_path_join w (sys_prefix w) ["bin"],
             os_path_join w (site_USER_SITE w) ["bin"])) /\
    forall (l : locations) (w' : World),
      module_init w = (Ok l, w') -> bin_py l = py /\ bin_user l = user.
Proof.
  split.
  - eexists _, _. split; [vm_compute; reflexivity | by vm_compute].
  - apply (windows_bin_falls_back_to_bin
             (windows_world "C:\venv" (Some "C:\Python27") windows_fs)).
    reflexivity.
Defined.

(** With a [Scripts] directory in place the [Scripts] pair is bound. *)
Example windows_bin_scripts :
  let w := windows_world "C:\venv" (Some "C:\Python27")
             (<["C:\venv\Scripts" := Dir 0]> windows_fs) in
  exists l w',
    module_init w = (Ok l, w') /\
    bin_py l = "C:\venv\Scripts" /\
    bin_user l
    = "C:\Users\alice\AppData\Roaming\Python\Python27\site-packages\Scripts".
Proof. eexists _, _. split; [vm_compute; reflexivity | by vm_compute]. Qed.

(** ** Absolute paths under posixpath *)

Lemma posix_isabs_inv s :
  posixpath.isabs s = true <-> exists t, s = String "/" t.
Proof.
  unfold posixpath.isabs. split.
  - destruct s as [| c t]; [done |]. cbn [Str.startswith].
    destruct (Ascii.eqb_spec "/" c) as [<- |]; simpl; [eauto | done].
  - intros [t ->]. reflexivity.
Qed.

Lemma posix_normpath_isabs p :
  posixpath.isabs p = true -> posixpath.isabs (posixpath.normpath p) = true.
Proof.
  intros Habs. pose proof Habs as Hstart.
  apply posix_isabs_inv in Habs as [t ->].
  unfold posixpath.normpath, posixpath.initial_slashes.
  unfold posixpath.isabs in Hstart. rewrite Hstart.
  cbn [Str.is_empty].
  destruct (Str.startswith (String "/" t) "//"
            && negb (Str.startswith (String "/" t) "///")); reflexivity.
Qed.

Lemma posix_join_isabs c p :
  posixpath.isabs c = true -> posixpath.isabs (posixpath.join c p) = true.
Proof.
  intros Habs. unfold posixpath.join.
  destruct (Str.startswith p "/") eqn:Hp; [exact Hp |].
  apply posix_isabs_inv in Habs as [t ->].
  destruct (_ || _); reflexivity.
Qed.

Lemma posix_abspath_isabs dir p r :
  (forall c, dir = Some c -> posixpath.isabs c = true) ->
  posixpath.abspath dir p = Ok r -> posixpath.isabs r = true.
Proof.
  intros Hdir. unfold posixpath.abspath.
  destruct (posixpath.isabs p) eqn:Hp.
  - intros [= <-]. by apply posix_normpath_isabs.
  - destruct dir as [c|]; [| done]. intros [= <-].
    apply posix_normpath_isabs, posix_join_isabs. by apply Hdir.
Qed.

Lemma os_path_abspath_isabs w p r :
  WINDOWS w = false -> cwd_absolute w ->
  os_path_abspath w p = Ok r -> pm_isabs (os_path w) r = true.
Proof.
  unfold os_path_abspath, cwd_absolute, os_path. intros -> Hcwd. simpl.
  apply posix_abspath_isabs, Hcwd.
Qed.


(** ** Absolute paths under ntpath *)

Lemma drive_absolute_inv p :
  drive_absolute p = true <->
  exists c d r, p = String c (String ":" (String d r)) /\
                Str.char_in d ntpath.seps = true.
Proof.
  unfold drive_absolute, ntpath.has_drive, ntpath.starts_with_sep. split.
  - destruct p as [| c [| x [| d r]]]; try done.
    + cbn. by rewrite andb_false_r.
    + cbn [Str.slice Str.drop Str.take Nat.sub Str.first_char].
      intros [Hx Hd]%andb_true_iff. apply String.eqb_eq in Hx as [= ->].
      eauto 6.
  - intros (c & d & r & -> & Hd).
    apply andb_true_iff. split; [reflexivity | exact Hd].
Qed.

Lemma drive_absolute_isabs p :
  drive_absolute p = true -> ntpath.isabs p = true.
Proof.
  intros (c & d & r & -> & Hd)%drive_absolute_inv.
  unfold ntpath.isabs, ntpath.splitdrive, ntpath.has_drive,
    ntpath.starts_with_sep.
  apply andb_true_iff. split; [reflexivity | exact Hd].
Qed.

Lemma drive_absolute_app p q :
  drive_absolute p = true -> drive_absolute (p ++ q) = true.
Proof.
  intros (c & d & r & -> & Hd)%drive_absolute_inv.
  apply drive_absolute_inv. exists c, d, (r ++ q). by split.
Qed.

Lemma nt_join_drive_absolute c b :
  drive_absolute c = true -> ntpath.isabs b = false ->
  drive_absolute (ntpath.join c b) = true.
Proof.
  intros Hc Hb. unfold ntpath.join. rewrite Hb.
  assert (Str.is_empty c = false) as ->.
  { apply drive_absolute_inv in Hc as (? & ? & ? & -> & _). done. }
  repeat case_match; by apply drive_absolute_app.
Qed.

Lemma replace_sep_is_backslash d :
  Str.char_in d ntpath.seps = true ->
  (if Ascii.eqb d "/" then "\"%char else d) = "\"%char.
Proof.
  unfold Str.char_in, ntpath.seps. cbn.
  destruct (Ascii.eqb_spec d "/") as [-> |]; [done |].
  destruct (Ascii.eqb_spec d "\") as [-> |]; done.
Qed.

Lemma nt_normpath_drive_absolute p :
  drive_absolute p = true -> drive_absolute (ntpath.normpath p) = true.
Proof.
  intros (c & d & r & -> & Hd)%drive_absolute_inv.
  unfold ntpath.normpath.
  assert (Str.startswith (String c (String ":" (String d r))) "\\.\" = false)
    as ->.
  { cbn. by rewrite andb_false_r. }
  assert (Str.startswith (String c (String ":" (String d r))) "\\?\" = false)
    as ->.
  { cbn. by rewrite andb_false_r. }
  cbn [orb Str.replace]. rewrite (replace_sep_is_backslash d Hd).
  change (Ascii.eqb ":" "/") with false. cbn iota.
  unfold ntpath.splitdrive, ntpath.has_drive.
  cbn [Str.slice Str.drop Str.take Nat.sub String.eqb Ascii.eqb Bool.eqb
       Str.is_empty Str.startswith andb].
  apply drive_absolute_app, drive_absolute_inv.
  eexists _, "\"%char, "". split; reflexivity.
Qed.

Lemma nt_abspath_drive_absolute dir p r :
  (forall c, dir = Some c -> drive_absolute c = true) ->
  (ntpath.isabs p = true -> drive_absolute p = true) ->
  ntpath.abspath dir p = Ok r -> drive_absolute r = true.
Proof.
  intros Hdir Hp. unfold ntpath.abspath.
  destruct (ntpath.isabs p) eqn:Habs.
  - intros [= <-]. by apply nt_normpath_drive_absolute, Hp.
  - destruct dir as [c|]; [| done]. intros [= <-].
    apply nt_normpath_drive_absolute, nt_join_drive_absolute; [| done].
    by apply Hdir.
Qed.

Lemma raw_prefixes_windows_drive w b s w' :
  WINDOWS w = true -> absolute_roots w ->
  raw_prefixes w = (Ok (b, s), w') ->
  drive_absolute b = true /\ drive_absolute s = true.
Proof.
  intros Hwin Hroots. unfold absolute_roots in Hroots. rewrite Hwin in Hroots.
  destruct Hroots as (Hprefix & Htmp & Hcwd).
  unfold raw_prefixes, os_getcwd. run.
  destruct (running_under_virtualenv w).
  - unfold os_path_join, os_path. rewrite Hwin. intros [= <- <- _].
    split; by apply nt_join_drive_absolute.
  - rewrite (_get_build_prefix_windows _ Hwin).
    destruct (cwd w) as [c|] eqn:Hc; simpl; [| done].
    unfold build_dir, os_path_join, os_path. rewrite Hwin.
    intros [= <- <- _].
    split; apply nt_join_drive_absolute; auto.
Qed.

Lemma os_path_abspath_windows w p r :
  WINDOWS w = true -> absolute_roots w -> drive_absolute p = true ->
  os_path_abspath w p = Ok r -> drive_absolute r = true.
Proof.
  intros Hwin Hroots Hp. unfold absolute_roots in Hroots.
  rewrite Hwin in Hroots. destruct Hroots as (_ & _ & Hcwd).
  unfold os_path_abspath, os_path. rewrite Hwin. simpl.
  by apply nt_abspath_drive_absolute.
Qed.

(** On either platform, what [os.path.abspath] makes of the directories the
    module chose is absolute. *)
Lemma normalized_prefixes_absolute w b s w' real build src :
  raw_prefixes w = (Ok (b, s), w') ->
  absolute_roots w' ->
  os_path_realpath w' b = Ok real ->
  os_path_abspath w' real = Ok build ->
  os_path_abspath w' s = Ok src ->
  pm_isabs (os_path w') build = true /\ pm_isabs (os_path w') src = true.
Proof.
  intros Hraw Hroots Hreal Hb Hs.
  pose proof (framed_raw_prefixes _ _ _ Hraw) as Hframe.
  destruct (WINDOWS w') eqn:Hwin.
  - pose proof (frame_WINDOWS _ _ Hframe) as Hwin0. rewrite Hwin in Hwin0.
    symmetry in Hwin0.
    pose proof (raw_prefixes_windows _ _ _ Hwin0 Hraw) as ->.
    destruct (raw_prefixes_windows_drive _ _ _ _ Hwin0 Hroots Hraw)
      as [Hdb Hds].
    unfold os_path. rewrite Hwin. simpl.
    split; apply drive_absolute_isabs.
    + apply (os_path_abspath_windows w real); try done.
      apply (os_path_abspath_windows w b); try done.
      unfold os_path_realpath, os_path in Hreal. rewrite Hwin in Hreal.
      unfold os_path_abspath, os_path. rewrite Hwin. exact Hreal.
    + by apply (os_path_abspath_windows w s).
  - unfold absolute_roots in Hroots. rewrite Hwin in Hroots.
    split; [by apply (os_path_abspath_isabs w' real)
           | by apply (os_path_abspath_isabs w' s)].
Qed.




(** Outside a virtualenv, on a path not yet taken: the build directory is
    made and both prefixes are absolute. *)
Example module_init_linux :
  let w := linux_world linux_fs in
  exists l w',
    module_init w = (Ok l, w') /\
    build_prefix l = "/tmp/pip_build_alice_liddell" /\
    src_prefix l = "/home/alice/project/src" /\
    lstat w' (build_prefix l) = Some (Dir 1000).
Proof. eexists _, _. split; [vm_compute; reflexivity | by vm_compute]. Qed.

(** When the working directory is gone the import ends the process. *)
Example module_init_without_cwd :
  fst (module_init
         (sample_world false "/usr" None None "/tmp" None 1000 linux_fs))
  = Raise (SystemExit
             "The folder you are executing pip from can no longer be found.").
Proof. vm_compute. reflexivity. Qed.

(** ** distutils_scheme *)

Lemma fill_scheme_SCHEME_KEYS i :
  fill_scheme i SCHEME_KEYS ∅ = Ok (base_scheme i).
Proof. reflexivity. Qed.

Lemma dom_base_scheme i : dom (base_scheme i) = scheme_roles.
Proof.
  unfold base_scheme, scheme_roles. rewrite !dom_insert_L, dom_empty_L.
  set_solver.
Qed.

Lemma dom_lib_scheme i : dom (lib_scheme i) = scheme_roles.
Proof.
  unfold lib_scheme. destruct (decide _); [| apply dom_base_scheme].
  rewrite !dom_insert_L, dom_base_scheme. unfold scheme_roles. set_solver.
Qed.

Lemma lib_scheme_lib i :
  install_lib i <> PyNone ->
  lib_scheme i !! "purelib" = Some (install_lib i) /\
  lib_scheme i !! "platlib" = Some (install_lib i).
Proof.
  intros Hlib. unfold lib_scheme. rewrite decide_True by done.
  split; by simplify_map_eq.
Qed.

Section distutils_scheme_properties.

Variable new_install : string -> M install_command.
Variable finalize_options : install_command -> M install_command.

Local Abbreviation scheme_of := (distutils_scheme new_install finalize_options).

(** The call, once the install command is finalized: the scheme of
    distutils with [install_lib] in the two library roles, and in a
    virtualenv the headers role overwritten. *)
Lemma distutils_scheme_run dist_name user home root w i0 w1 i w2 :
  new_install dist_name w = (Ok i0, w1) ->
  finalize_options
    (set_overrides (PyBool user) (of_opt home) (of_opt root) i0) w1
  = (Ok i, w2) ->
  scheme_of dist_name user home root w =
    if running_under_virtualenv w2 then
      match root with
      | Some r =>
          match os_path_abspath w2 (venv_headers w2 dist_name) with
          | Ok abs =>
              (Ok (<["headers" :=
                       PyStr (os_path_join w2 r [Str.drop 1 abs])]>
                     (<["headers" := PyStr (venv_headers w2 dist_name)]>
                        (lib_scheme i))), w2)
          | Raise e => (Raise e, w2)
          end
      | None =>
          (Ok (<["headers" := PyStr (venv_headers w2 dist_name)]>
                 (lib_scheme i)), w2)
      end
    else (Ok (lib_scheme i), w2).
Proof.
  intros Hnew Hfin. unfold distutils_scheme. run.
  rewrite Hnew, Hfin, fill_scheme_SCHEME_KEYS. fold (lib_scheme i).
  destruct (running_under_virtualenv w2); [| done].
  destruct root as [r|]; [| done].
  by destruct (os_path_abspath w2 _).
Qed.

(** A returned scheme comes from a finalized install command. *)
Lemma distutils_scheme_inv dist_name user home root w scheme w' :
  scheme_of dist_name user home root w = (Ok scheme, w') ->
  exists i0 w1 i,
    new_install dist_name w = (Ok i0, w1) /\
    finalize_options
      (set_overrides (PyBool user) (of_opt home) (of_opt root) i0) w1
    = (Ok i, w').
Proof.
  intros Hrun.
  destruct (new_install dist_name w) as [[i0|e] w1] eqn:Hnew;
    [| unfold distutils_scheme in Hrun; run; by rewrite Hnew in Hrun].
  destruct (finalize_options
              (set_overrides (PyBool user) (of_opt home) (of_opt root) i0) w1)
    as [[i|e] w2] eqn:Hfin;
    [| unfold distutils_scheme in Hrun; run; by rewrite Hnew, Hfin in Hrun].
  rewrite (distutils_scheme_run _ _ _ _ _ _ _ _ _ Hnew Hfin) in Hrun.
  exists i0, w1, i. split; [done |].
  repeat case_match; by simplify_eq.
Qed.

(** C5. When the finalized install command has an [install_lib] that is
    not [None], every mapping [distutils_scheme] returns has that value as
    both [purelib] and [platlib]; and the call does return a mapping,
    unless it is in a virtualenv with a [root] and the headers path cannot
    be made absolute. *)
Theorem distutils_scheme_install_lib
    (dist_name : string) (user : bool) (home root : option string)
    (w w1 w2 : World) (i0 i : install_command) :
  new_install dist_name w = (Ok i0, w1) ->
  finalize_options
    (set_overrides (PyBool user) (of_opt home) (of_opt root) i0) w1
  = (Ok i, w2) ->
  install_lib i <> PyNone ->
  (forall scheme w',
     scheme_of dist_name user home root w = (Ok scheme, w') ->
     scheme !! "purelib" = Some (install_lib i) /\
     scheme !! "platlib" = Some (install_lib i)) /\
  (running_under_virtualenv w2 = false \/ root = None \/
   (exists abs, os_path_abspath w2 (venv_headers w2 dist_name) = Ok abs) ->
   exists scheme, scheme_of dist_name user home root w = (Ok scheme, w2)).
Proof.
  intros Hnew Hfin Hlib.
  rewrite (distutils_scheme_run _ _ _ _ _ _ _ _ _ Hnew Hfin).
  destruct (lib_scheme_lib _ Hlib) as [Hpure Hplat]. split.
  - intros scheme w' Hrun.
    repeat case_match; simplify_eq; by simplify_map_eq.
  - intros Hret. destruct (running_under_virtualenv w2); [| eauto].
    destruct root as [r|]; [| eauto].
    destruct Hret as [? | [? | [abs ->]]]; [done | done | eauto].
Qed.

(** C10. Whatever the arguments, a mapping returned by [distutils_scheme]
    has exactly the keys purelib, platlib, headers, scripts and data; and
    once the install command is finalized the call returns a mapping,
    unless it is in a virtualenv with a [root] and the headers path cannot
    be made absolute. *)
Theorem distutils_scheme_keys
    (dist_name : string) (user : bool) (home root : option string)
    (w : World) :
  (forall scheme w',
     scheme_of dist_name user home root w = (Ok scheme, w') ->
     dom scheme = {[ "purelib"; "platlib"; "headers"; "scripts"; "data" ]}) /\
  (forall i0 w1 i w2,
     new_install dist_name w = (Ok i0, w1) ->
     finalize_options
       (set_overrides (PyBool user) (of_opt home) (of_opt root) i0) w1
     = (Ok i, w2) ->
     running_under_virtualenv w2 = false \/ root = None \/
     (exists abs, os_path_abspath w2 (venv_headers w2 dist_name) = Ok abs) ->
     exists scheme, scheme_of dist_name user home root w = (Ok scheme, w2)).
Proof.
  split.
  - intros scheme w' Hrun.
    destruct (distutils_scheme_inv _ _ _ _ _ _ _ Hrun)
      as (i0 & w1 & i & Hnew & Hfin).
    rewrite (distutils_scheme_run _ _ _ _ _ _ _ _ _ Hnew Hfin) in Hrun.
    fold scheme_roles.
    repeat case_match; simplify_eq;
      rewrite ?dom_insert_L, dom_lib_scheme; unfold scheme_roles; set_solver.
  - intros i0 w1 i w2 Hnew Hfin Hret.
    rewrite (distutils_scheme_run _ _ _ _ _ _ _ _ _ Hnew Hfin).
    destruct (running_under_virtualenv w2); [| eauto].
    destruct root as [r|]; [| eauto].
    destruct Hret as [? | [? | [abs ->]]]; [done | done | eauto].
Qed.

(** In a virtualenv the headers role is the venv headers directory, and
    with a [root] it is [root] joined with the absolute form of that
    directory less its first character. *)
Lemma distutils_scheme_headers dist_name user home root w scheme w' :
  scheme_of dist_name user home root w = (Ok scheme, w') ->
  running_under_virtualenv w' = true ->
  match root with
  | Some r =>
      exists abs,
        os_path_abspath w' (venv_headers w' dist_name) = Ok abs /\
        scheme !! "headers"
        = Some (PyStr (os_path_join w' r [Str.drop 1 abs]))
  | None => scheme !! "headers" = Some (PyStr (venv_headers w' dist_name))
  end.
Proof.
  intros Hrun Hvenv.
  destruct (distutils_scheme_inv _ _ _ _ _ _ _ Hrun)
    as (i0 & w1 & i & Hnew & Hfin).
  rewrite (distutils_scheme_run _ _ _ _ _ _ _ _ _ Hnew Hfin), Hvenv in Hrun.
  destruct root as [r|].
  - destruct (os_path_abspath w' _) as [abs|e]; [| done].
    exists abs. split; [done |]. by simplify_map_eq.
  - by simplify_map_eq.
Qed.

End distutils_scheme_properties.

Lemma distutils_scheme_install_lib_witness :
  let w := linux_venv_world "/tmp/venv" symlinked_tmp_fs in
  (forall scheme w',
     distutils_scheme sample_new_install sample_finalize_options
       "pkg" false None (Some "/alt/root") w = (Ok scheme, w') ->
     scheme !! "purelib" = Some (PyStr "/tmp/venv/lib/python2.7/site-packages")
     /\
     scheme !! "platlib" = Some (PyStr "/tmp/venv/lib/python2.7/site-packages"))
  /\
  (running_under_virtualenv w = false \/ Some "/alt/root" = None \/
   (exists abs, os_path_abspath w (venv_headers w "pkg") = Ok abs) ->
   exists scheme,
     distutils_scheme sample_new_install sample_finalize_options
       "pkg" false None (Some "/alt/root") w = (Ok scheme, w)).
Proof.
  apply (distutils_scheme_install_lib sample_new_install
           sample_finalize_options "pkg" false None (Some "/alt/root")
           (linux_venv_world "/tmp/venv" symlinked_tmp_fs)
           (linux_venv_world "/tmp/venv" symlinked_tmp_fs)
           (linux_venv_world "/tmp/venv" symlinked_tmp_fs)
           {| i_name := "pkg"; i_user := PyInt 0; i_home := PyNone;
              i_root := PyNone; install_lib := PyNone;
              install_purelib := PyNone; install_platlib := PyNone;
              install_headers := PyNone; install_scripts := PyNone;
              install_data := PyNone |}
           {| i_name := "pkg"; i_user := PyInt 0; i_home := PyNone;
              i_root := PyStr "/alt/root";
              install_lib := PyStr "/tmp/venv/lib/python2.7/site-packages";
              install_purelib := PyStr "/tmp/venv/lib/python2.7/site-packages";
              install_platlib := PyStr "/tmp/venv/lib/python2.7/site-packages";
              install_headers := PyStr "/tmp/venv/include/python2.7/pkg";
              install_scripts := PyStr "/tmp/venv/bin";
              install_data := PyStr "/tmp/venv" |});
    [reflexivity | reflexivity | discriminate].
Defined.

Lemma distutils_scheme_keys_witness :
  let w := linux_world linux_fs in
  (exists scheme,
     distutils_scheme sample_new_install sample_finalize_options
       "pkg" true None None w = (Ok scheme, w) /\
     dom scheme = {[ "purelib"; "platlib"; "headers"; "scripts"; "data" ]}).
Proof.
  intros w.
  destruct (proj2 (distutils_scheme_keys sample_new_install
                     sample_finalize_options "pkg" true None None w)
              _ _ _ _ eq_refl eq_refl (or_introl eq_refl))
    as [scheme Hrun].
  exists scheme. split; [exact Hrun |].
  exact (proj1 (distutils_scheme_keys sample_new_install
                  sample_finalize_options "pkg" true None None w)
           scheme w Hrun).
Defined.

(** [user] together with [home] is refused by the sample distutils: no
    mapping is returned. *)
Example distutils_scheme_raises :
  fst (distutils_scheme sample_new_install sample_finalize_options
         "pkg" true (Some "/opt/pkgs") None (linux_world linux_fs))
  = Raise (DistutilsError
      "can't combine user with prefix, exec_prefix/home, or install_(plat)base").
Proof. reflexivity. Qed.

(** Under [posixpath] the character that [[1:]] drops from the absolute
    headers path is its leading separator. *)
Lemma posix_abspath_leading_sep w p abs :
  WINDOWS w = false -> cwd_absolute w ->
  os_path_abspath w p = Ok abs -> abs = String "/" (Str.drop 1 abs).
Proof.
  intros Hwin Hcwd Habs.
  pose proof (os_path_abspath_isabs _ _ _ Hwin Hcwd Habs) as Hisabs.
  unfold os_path in Hisabs. rewrite Hwin in Hisabs.
  by apply posix_isabs_inv in Hisabs as [t ->].
Qed.

(** So off Windows the rooted headers path is [root] joined with the venv
    headers path made absolute and stripped of its leading separator. *)
Lemma distutils_scheme_headers_posix
    (new_install : string -> M install_command)
    (finalize_options : install_command -> M install_command)
    dist_name user home r w scheme w' :
  distutils_scheme new_install finalize_options dist_name user home (Some r) w
  = (Ok scheme, w') ->
  running_under_virtualenv w' = true ->
  WINDOWS w' = false -> cwd_absolute w' ->
  exists rest,
    os_path_abspath w' (venv_headers w' dist_name) = Ok (String "/" rest) /\
    scheme !! "headers" = Some (PyStr (os_path_join w' r [rest])).
Proof.
  intros Hrun Hvenv Hwin Hcwd.
  destruct (distutils_scheme_headers _ _ _ _ _ _ _ _ _ Hrun Hvenv)
    as (abs & Habs & Hheaders).
  exists (Str.drop 1 abs).
  by rewrite <- (posix_abspath_leading_sep _ _ _ Hwin Hcwd Habs).
Qed.

Example distutils_scheme_headers_linux :
  scheme_entry "headers"
    (distutils_scheme sample_new_install sample_finalize_options
       "pkg" false None (Some "/alt/root")
       (linux_venv_world "/tmp/venv" symlinked_tmp_fs))
  = Some (PyStr "/alt/root/tmp/venv/include/site/python2.7/pkg").
Proof. vm_compute. reflexivity. Qed.

(** C6 fails on Windows.  In a virtualenv at [C:\venv], with
    [root = D:\alt], the venv headers path is already absolute and starts
    with the drive letter; [[1:]] drops the letter [C], not a separator,
    and the headers entry becomes [D:\alt\:\venv\...], which is neither
    the headers path less its leading separator below the root nor a path
    Windows accepts. *)
Theorem distutils_scheme_windows_root_drops_drive_letter :
  let w := windows_world "C:\venv" (Some "C:\Python27") windows_fs in
  running_under_virtualenv w = true /\
  os_path_abspath w (venv_headers w "pkg")
  = Ok "C:\venv\include\site\python2.7\pkg" /\
  Str.first_char "C:\venv\include\site\python2.7\pkg" = Some "C"%char /\
  scheme_entry "headers"
    (distutils_scheme sample_new_install sample_finalize_options
       "pkg" false None (Some "D:\alt") w)
  = Some (PyStr "D:\alt\:\venv\include\site\python2.7\pkg") /\
  os_path_join w "D:\alt" ["venv\include\site\python2.7\pkg"]
  = "D:\alt\venv\include\site\python2.7\pkg".
Proof.
  intros w. split; [reflexivity |]. split; [vm_compute; reflexivity |].
  split; [reflexivity |]. split; vm_compute; reflexivity.
Qed.

(** ** Resolving paths after a change that touches no link *)

Lemma posix_lstat_link_target fs1 fs2 dir p :
  same_links fs1 fs2 ->
  link_target (posixpath.lstat fs1 dir p)
  = link_target (posixpath.lstat fs2 dir p).
Proof.
  intros Hsame. unfold posixpath.lstat.
  destruct (posixpath.abspath dir p); [apply Hsame | done].
Qed.

Lemma posix_islink_same fs1 fs2 dir p :
  same_links fs1 fs2 ->
  posixpath.islink fs1 dir p = posixpath.islink fs2 dir p.
Proof.
  intros Hsame. pose proof (posix_lstat_link_target _ _ dir p Hsame) as H.
  unfold posixpath.islink.
  destruct (posixpath.lstat fs1 dir p) as [[]|],
    (posixpath.lstat fs2 dir p) as [[]|]; by simplify_eq/=.
Qed.

Lemma posix_readlink_same fs1 fs2 dir p :
  same_links fs1 fs2 ->
  posixpath.readlink fs1 dir p = posixpath.readlink fs2 dir p.
Proof.
  intros Hsame. pose proof (posix_lstat_link_target _ _ dir p Hsame) as H.
  unfold posixpath.readlink.
  destruct (posixpath.lstat fs1 dir p) as [[]|],
    (posixpath.lstat fs2 dir p) as [[]|]; by simplify_eq/=.
Qed.

Lemma _joinrealpath_same_links fs1 fs2 dir depth path rest seen :
  same_links fs1 fs2 ->
  posixpath._joinrealpath depth fs1 dir path rest seen
  = posixpath._joinrealpath depth fs2 dir path rest seen.
Proof.
  intros Hsame. revert path rest seen.
  induction depth as [| depth IH]; intros path rest seen; [done |].
  cbn [posixpath._joinrealpath].
  match goal with
  | |- (if _ then ?walk1 _ _ _ else _) = (if _ then ?walk2 _ _ _ else _) =>
      assert (forall comps p s, walk1 comps p s = walk2 comps p s) as Hwalk
  end.
  { induction comps as [| name comps IHc]; intros p s; [done |].
    cbn beta iota fix.
    rewrite !IHc, (posix_islink_same _ _ dir _ Hsame),
      (posix_readlink_same _ _ dir _ Hsame), IH.
    repeat case_match; simplify_eq; try done; by rewrite ?IHc. }
  by rewrite !Hwalk.
Qed.

Lemma same_links_insert (f : filesystem) k n :
  link_target (f !! k) = None -> link_target (Some n) = None ->
  same_links f (<[k := n]> f).
Proof.
  intros Hold Hnew k'. destruct (decide (k = k')) as [<- |].
  - by rewrite lookup_insert_eq, Hold, Hnew.
  - by rewrite lookup_insert_ne.
Qed.

Lemma os_path_realpath_set_fs w f p :
  same_links (fs w) f ->
  os_path_realpath (set_fs f w) p = os_path_realpath w p.
Proof.
  intros Hsame. unfold os_path_realpath, os_path. simpl.
  destruct (WINDOWS w); simpl; [done |].
  unfold posixpath.realpath.
  by rewrite (_joinrealpath_same_links _ _ _ _ _ _ _ Hsame).
Qed.

Lemma lstat_key_set_fs w f p :
  same_links (fs w) f -> lstat_key (set_fs f w) p = lstat_key w p.
Proof.
  intros Hsame. unfold lstat_key.
  change (os_path (set_fs f w)) with (os_path w).
  destruct (pm_split (os_path w) p) as [head tail].
  pose proof (os_path_realpath_set_fs w f head Hsame) as Hreal.
  unfold os_path_realpath in Hreal.
  change (os_path (set_fs f w)) with (os_path w) in Hreal.
  by rewrite Hreal.
Qed.

(** ** write_delete_marker_file *)

Lemma write_file_cases p content w r w' :
  write_file p content w = (r, w') ->
  (r = Raise IOError /\ w' = w) \/
  (r = Ok tt /\
   exists k o,
     os_path_realpath w p = Ok k /\
     link_target (fs w !! k) = None /\
     (fs w !! k = None \/ exists c, fs w !! k = Some (File o c)) /\
     w' = set_fs (<[k := File o content]> (fs w)) w).
Proof.
  unfold write_file. intros Hrun.
  repeat case_match; simplify_eq; try (by left); right;
    (split; [done |]); eexists _, _; split; try done.
  - rewrite H3. eauto 6.
  - rewrite H3. eauto 6.
Qed.

Lemma stat_after_write w k o content p :
  os_path_realpath w p = Ok k ->
  link_target (fs w !! k) = None ->
  stat (set_fs (<[k := File o content]> (fs w)) w) p
  = Some (File o content).
Proof.
  intros Hk Hlink. unfold stat.
  fold (os_path_realpath (set_fs (<[k:=File o content]> (fs w)) w) p).
  rewrite os_path_realpath_set_fs, Hk by (by apply same_links_insert).
  simpl. by rewrite lookup_insert_eq.
Qed.

Lemma write_delete_marker_file_writes_marker directory w w' :
  write_delete_marker_file directory w = (Ok tt, w') ->
  exists o,
    stat w' (marker_path w directory) = Some (File o DELETE_MARKER_MESSAGE).
Proof.
  unfold write_delete_marker_file. run. fold (marker_path w directory).
  intros Hrun.
  destruct (write_file_cases _ _ _ _ _ Hrun)
    as [[? _] | (_ & k & o & Hk & Hlink & _ & ->)]; [done |].
  exists o. by apply stat_after_write.
Qed.



(** ** The outcomes of _get_build_prefix *)

Lemma _get_build_prefix_unfold w path :
  WINDOWS w = false ->
  build_prefix_path w = (Ok path, w) ->
  _get_build_prefix w
  = (try_except (os_mkdir path;; write_delete_marker_file path)
       is_OSError (owner_check path);;
     mret path) w.
Proof.
  intros Hwin Hpath. unfold _get_build_prefix.
  unfold mbind at 1, M_bind at 1. rewrite Hpath.
  unfold mbind at 1, M_bind at 1, gets at 1. by rewrite Hwin.
Qed.

Lemma set_stdout_twice out out' w :
  set_stdout out (set_stdout out' w) = set_stdout out w.
Proof. reflexivity. Qed.

Lemma owner_check_cases path w :
  (get_path_uid path w = (Ok (euid w), w) /\
   owner_check path w = (Ok tt, w)) \/
  (get_path_uid path w <> (Ok (euid w), w) /\
   owner_check path w
   = (Raise (InstallationError (not_owned_msg path)),
      set_stdout (stdout w ++ [not_owned_msg path; not_owned_hint]) w)).
Proof.
  unfold owner_check. run.
  pose proof (get_path_uid_world path w) as Hw.
  destruct (get_path_uid path w) as [[o|e] w1] eqn:Hu; simpl in Hw; subst w1.
  - simpl. destruct (decide (Some o ≠ Some (euid w))) as [Hne | Heq].
    + right. split; [congruence |]. unfold print. simpl.
      by rewrite <- app_assoc.
    + left. apply dec_stable in Heq. by simplify_eq.
  - right. split; [done |].
    unfold get_path_uid in Hu.
    destruct (lstat w path) as [[o|o c|o t]|]; simplify_eq; simpl;
      unfold print; simpl; by rewrite <- app_assoc.
Qed.

(** After a successful [os.mkdir] the path is a directory of the caller. *)
Lemma os_mkdir_makes_own_directory p w wm :
  os_mkdir p w = (Ok tt, wm) ->
  frame w wm /\ lstat wm p = Some (Dir (euid w)) /\
  get_path_uid p wm = (Ok (euid wm), wm).
Proof.
  intros Hmk.
  destruct (os_mkdir_cases _ _ _ _ Hmk) as [[? _] | (_ & Hnone & k & Hk & ->)];
    [done |].
  assert (lstat (set_fs (<[k:=Dir (euid w)]> (fs w)) w) p
          = Some (Dir (euid w))) as Hdir.
  { unfold lstat in *. rewrite Hk in Hnone.
    rewrite lstat_key_set_fs, Hk.
    - simpl. by rewrite lookup_insert_eq.
    - apply same_links_insert; [by rewrite Hnone | done]. }
  split; [apply frame_set_fs |]. split; [done |].
  unfold get_path_uid. by rewrite Hdir.
Qed.

Lemma write_delete_marker_file_frame d w r w' :
  write_delete_marker_file d w = (r, w') ->
  (r = Raise IOError /\ w' = w) \/ (r = Ok tt /\ frame w w').
Proof.
  intros Hrun. pose proof (framed_write_delete_marker_file _ _ _ _ Hrun).
  unfold write_delete_marker_file in Hrun. run.
  destruct (write_file_cases _ _ _ _ _ Hrun) as [? | [-> _]]; eauto.
Qed.

(** Off Windows a call goes one of the five ways of
    [build_prefix_outcome]. *)
Lemma _get_build_prefix_outcome w path r w' :
  WINDOWS w = false ->
  build_prefix_path w = (Ok path, w) ->
  _get_build_prefix w = (r, w') ->
  build_prefix_outcome w path r w'.
Proof.
  intros Hwin Hpath. rewrite (_get_build_prefix_unfold _ _ Hwin Hpath). run.
  destruct (os_mkdir path w) as [rm wm] eqn:Hmk.
  destruct (os_mkdir_cases _ _ _ _ Hmk) as [[-> ->] | (-> & _)].
  - simpl. destruct (owner_check_cases path w) as [[Hu ->] | [Hu ->]];
      intros [= <- <-]; by constructor.
  - destruct (os_mkdir_makes_own_directory _ _ _ Hmk)
      as ((f & out & Hwm) & _ & Huid).
    destruct (write_delete_marker_file path wm) as [rw w2] eqn:Hwrite.
    destruct (write_delete_marker_file_frame _ _ _ _ Hwrite)
      as [[-> ->] | [-> _]].
    + simpl. assert (io_error_is_os_error wm = io_error_is_os_error w) as ->
        by (by subst wm).
      destruct (io_error_is_os_error w) eqn:Hio.
      * destruct (owner_check_cases path wm) as [[_ ->] | [Hne _]];
          [| done].
        intros [= <- <-]. by eapply fresh_without_marker.
      * intros [= <- <-]. by eapply fresh_marker_error.
    + intros [= <- <-]. by eapply fresh_with_marker.
Qed.

Lemma os_mkdir_stdout p w r w' : os_mkdir p w = (r, w') -> stdout w' = stdout w.
Proof.
  intros Hmk.
  by destruct (os_mkdir_cases _ _ _ _ Hmk) as [[_ ->] | (_ & _ & k & _ & ->)].
Qed.

Lemma write_delete_marker_file_stdout d w r w' :
  write_delete_marker_file d w = (r, w') -> stdout w' = stdout w.
Proof.
  unfold write_delete_marker_file. run. intros Hrun.
  by destruct (write_file_cases _ _ _ _ _ Hrun)
    as [[_ ->] | (_ & k & o & _ & _ & _ & ->)].
Qed.

(** Writing the marker never replaces a directory. *)
Lemma write_delete_marker_file_keeps_directory d w w' p o :
  write_delete_marker_file d w = (Ok tt, w') ->
  lstat w p = Some (Dir o) -> lstat w' p = Some (Dir o).
Proof.
  unfold write_delete_marker_file. run. intros Hrun.
  destruct (write_file_cases _ _ _ _ _ Hrun)
    as [[? _] | (_ & k & o' & _ & Hlink & Hold & ->)]; [done |].
  unfold lstat. rewrite lstat_key_set_fs by (by apply same_links_insert).
  destruct (lstat_key w p) as [kp|]; [| done]. simpl. intros Hdir.
  rewrite lookup_insert_ne; [done |].
  intros <-. destruct Hold as [Hold | [c Hold]]; congruence.
Qed.

Lemma build_prefix_path_frame w w' p :
  frame w w' -> build_prefix_path w = (Ok p, w) ->
  build_prefix_path w' = (Ok p, w').
Proof.
  intros (f & out & ->).
  unfold build_prefix_path, __get_username, getpwuid_name, os_path_join,
    os_path. run.
  change (WINDOWS (set_stdout out (set_fs f w))) with (WINDOWS w).
  destruct (WINDOWS w) eqn:Hwin; cbn beta iota.
  - intros H. simplify_eq. reflexivity.
  - change (passwd (set_stdout out (set_fs f w))) with (passwd w).
    change (euid (set_stdout out (set_fs f w))) with (euid w).
    destruct (passwd w !! euid w); intros H; simplify_eq. reflexivity.
Qed.

(** What is at the path after a call that returned it belongs to the
    caller, whichever way the call went. *)
Lemma build_prefix_outcome_owned w p w' :
  build_prefix_outcome w p (Ok p) w' ->
  get_path_uid p w' = (Ok (euid w'), w').
Proof.
  intros Hout.
  inversion Hout as [Hmk Hu | | wm w2 Hmk Hwrite | | wm Hmk Hwrite Hio];
    subst; [done | |].
  - destruct (os_mkdir_makes_own_directory _ _ _ Hmk)
      as ((f & out & ->) & Hdir & _).
    pose proof (framed_write_delete_marker_file _ _ _ _ Hwrite)
      as (f' & out' & ->).
    apply (write_delete_marker_file_keeps_directory _ _ _ p _ Hwrite)
      in Hdir.
    unfold get_path_uid. by rewrite Hdir.
  - by destruct (os_mkdir_makes_own_directory _ _ _ Hmk) as (_ & _ & ?).
Qed.






(** X7. Off Windows, when the effective uid has no entry in the password
    database, [_get_build_prefix] raises [KeyError] before it touches the
    file system, and outside a virtualenv so does importing the module. *)
Theorem _get_build_prefix_unknown_uid (w : World) :
  WINDOWS w = false ->
  passwd w !! euid w = None ->
  _get_build_prefix w = (Raise KeyError, w) /\
  (running_under_virtualenv w = false ->
   module_init w = (Raise KeyError, w)).
Proof.
  intros Hwin Hnone.
  assert (_get_build_prefix w = (Raise KeyError, w)) as Hrun.
  { unfold _get_build_prefix, build_prefix_path, __get_username,
      getpwuid_name. run. by rewrite Hwin, Hnone. }
  split; [done |]. intros Hvenv.
  unfold module_init, raw_prefixes. run. by rewrite Hvenv, Hrun.
Qed.






Lemma _get_build_prefix_unknown_uid_witness :
  let w := sample_world false "/usr" None None "/tmp" (Some "/") 4242
             linux_fs in
  _get_build_prefix w = (Raise KeyError, w) /\
  (running_under_virtualenv w = false ->
   module_init w = (Raise KeyError, w)).
Proof.
  intros w. apply (_get_build_prefix_unknown_uid w); reflexivity.
Defined.

(** ** What importing the module binds *)

Lemma raw_prefixes_venv w :
  running_under_virtualenv w = true ->
  raw_prefixes w
  = (Ok (os_path_join w (sys_prefix w) ["build"],
         os_path_join w (sys_prefix w) ["src"]), w).
Proof. intros Hvenv. unfold raw_prefixes. run. by rewrite Hvenv. Qed.

(** The world an import leaves is the one the choice of the prefixes
    left; the bundle and the site config files are as follows. *)
Lemma module_init_steps w r w' :
  module_init w = (r, w') ->
  exists rr, raw_prefixes w = (rr, w') /\
    forall l, r = Ok l ->
      CA_BUNDLE_PATH l = List.find (os_path_exists w) CA_BUNDLE_PATHS /\
      site_config_files l
      = List.map (fun d => os_path_join w' d [default_config_basename l])
          (appdirs_site_config_dirs w') /\
      user_dir l = home_dir w' /\ user_site l = site_USER_SITE w' /\
      site_packages l = python_lib w' /\
      USER_CACHE_DIR l = appdirs_user_cache_dir w.
Proof.
  unfold module_init. run.
  destruct (raw_prefixes w) as [[raw|e] w1] eqn:Hraw;
    [| intros [= <- <-]; eexists; split; [done | by intros l [=]]].
  destruct (normalize_prefixes raw w1) as [[[b s]|e] w2] eqn:Hnorm;
    pose proof (normalize_prefixes_world _ _ _ _ Hnorm) as ->;
    [| intros [= <- <-]; eexists; split; [done | by intros l [=]]].
  destruct (platform_paths w1) as [[[[[? ?] ?] ?] ?] ?] eqn:Hplat.
  intros [= <- <-]. eexists. split; [done |].
  by intros l [= <-].
Qed.

Lemma find_first {A} (f : A -> bool) (l : list A) (x : A) :
  List.find f l = Some x ->
  exists before after,
    l = (before ++ x :: after)%list /\ f x = true /\
    Forall (fun y => f y = false) before.
Proof.
  induction l as [| a l IH]; [done |]. simpl.
  destruct (f a) eqn:Hfa.
  - intros [= ->]. by exists [], l.
  - intros (before & after & -> & Hx & Hbefore)%IH.
    exists (a :: before), after. split; [done |]. split; [done |].
    by constructor.
Qed.

(** X8. In a virtualenv, and on Windows, importing the module leaves the
    world as it was whatever the outcome: no build directory is made, no
    marker is written and nothing is printed. *)
Theorem module_init_leaves_world_in_virtualenv (w : World)
    (r : result locations) (w' : World) :
  module_init w = (r, w') ->
  running_under_virtualenv w = true \/ WINDOWS w = true ->
  w' = w.
Proof.
  intros Hinit Hcase.
  destruct (module_init_steps _ _ _ Hinit) as (rr & Hraw & _).
  destruct Hcase as [Hvenv | Hwin].
  - rewrite (raw_prefixes_venv _ Hvenv) in Hraw. by simplify_eq.
  - by apply (raw_prefixes_windows _ _ _ Hwin Hraw).
Qed.

Lemma module_init_leaves_world_in_virtualenv_witness :
  let w := linux_venv_world "/tmp/venv" symlinked_tmp_fs in
  snd (module_init w) = w.
Proof.
  intros w.
  apply (module_init_leaves_world_in_virtualenv w (fst (module_init w))
           (snd (module_init w))).
  - by destruct (module_init w).
  - left. reflexivity.
Defined.

(** X9. Outside a virtualenv, when [os.getcwd()] raises, the import ends
    with [SystemExit] and its message - but only after
    [_get_build_prefix] has run: the world left is the one with the build
    directory it made. *)
Theorem module_init_exits_without_cwd (w : World) (p : string) (w1 : World) :
  running_under_virtualenv w = false ->
  cwd w = None ->
  _get_build_prefix w = (Ok p, w1) ->
  module_init w
  = (Raise (SystemExit
       "The folder you are executing pip from can no longer be found."), w1).
Proof.
  intros Hvenv Hcwd Hrun.
  pose proof (framed__get_build_prefix _ _ _ Hrun) as (f & out & ->).
  unfold module_init, raw_prefixes, os_getcwd. run.
  rewrite Hvenv, Hrun. simpl. by rewrite Hcwd.
Qed.

Lemma module_init_exits_without_cwd_witness :
  let w := sample_world false "/usr" None None "/tmp" None 1000 linux_fs in
  let w1 := snd (_get_build_prefix w) in
  module_init w
  = (Raise (SystemExit
       "The folder you are executing pip from can no longer be found."), w1)
  /\ lstat w1 "/tmp/pip_build_alice_liddell" = Some (Dir 1000).
Proof.
  intros w w1. split.
  - apply (module_init_exits_without_cwd w "/tmp/pip_build_alice_liddell" w1);
      [reflexivity | reflexivity | subst w w1; vm_compute; reflexivity].
  - subst w w1. vm_compute. reflexivity.
Defined.

(** X10. Outside a virtualenv, an exception of [_get_build_prefix] - the
    [InstallationError] for a directory that is not the caller's, for one -
    comes out of the import as it is. *)
Theorem module_init_propagates_build_prefix_error (w : World) (e : exn)
    (w1 : World) :
  running_under_virtualenv w = false ->
  _get_build_prefix w = (Raise e, w1) ->
  module_init w = (Raise e, w1).
Proof.
  intros Hvenv Hrun. unfold module_init, raw_prefixes. run.
  by rewrite Hvenv, Hrun.
Qed.

Lemma module_init_propagates_build_prefix_error_witness :
  let w := linux_world (<["/tmp/pip_build_alice_liddell" := Dir 1001]> linux_fs) in
  module_init w
  = (Raise (InstallationError (not_owned_msg "/tmp/pip_build_alice_liddell")),
     snd (_get_build_prefix w)).
Proof.
  intros w.
  apply (module_init_propagates_build_prefix_error w); [reflexivity |].
  subst w. vm_compute. reflexivity.
Defined.

Lemma startswith_take (s pre : string) :
  String.eqb (Str.take (String.length pre) s) pre = Str.startswith s pre.
Proof.
  revert s. induction pre as [| a pre IH]; intros s; [done |].
  destruct s as [| b s]; [done |]. simpl.
  rewrite <- IH, (Ascii.eqb_sym a b). by destruct (Ascii.eqb b a).
Qed.

Lemma platform_paths_frame_posix w w' :
  frame w w' -> WINDOWS w = false -> platform_paths w' = platform_paths w.
Proof.
  intros (f & out & ->) Hwin. unfold platform_paths.
  change (WINDOWS (set_stdout out (set_fs f w))) with (WINDOWS w).
  rewrite Hwin. reflexivity.
Qed.

(** The platform paths bound are those of the world before the import. *)
Lemma module_init_platform_paths w l w' :
  module_init w = (Ok l, w') ->
  platform_paths w
  = (bin_py l, bin_user l, default_storage_dir l,
     default_config_basename l, default_config_file l, default_log_file l).
Proof.
  intros Hinit.
  destruct (module_init_inv _ _ _ Hinit) as (raw & Hraw & _ & Hplat).
  destruct (WINDOWS w) eqn:Hwin.
  - by rewrite (raw_prefixes_windows _ _ _ Hwin Hraw) in Hplat.
  - by rewrite (platform_paths_frame_posix _ _ (framed_raw_prefixes _ _ _ Hraw)
                  Hwin) in Hplat.
Qed.

(** X11. Off Windows, for a Mac OS X framework interpreter
    ([sys.platform] starts with [darwin] and [sys.prefix] with
    [/System/Library/]) the module binds [bin_py] to [/usr/local/bin] and
    [default_log_file] to [Library/Logs/pip.log] below the home directory;
    [bin_user], the storage directory and the config file are the POSIX
    ones.  For any other interpreter off Windows [bin_py] is [bin] below
    [sys.prefix] and the log file is [pip.log] in the storage directory. *)
Theorem module_init_posix_platform_paths (w : World) (l : locations)
    (w' : World) :
  module_init w = (Ok l, w') ->
  WINDOWS w = false ->
  bin_user l = os_path_join w (site_USER_SITE w) ["bin"] /\
  default_storage_dir l = os_path_join w (home_dir w) [".pip"] /\
  default_config_file l = os_path_join w (home_dir w) [".pip"; "pip.conf"] /\
  (if Str.startswith (sys_platform w) "darwin"
      && Str.startswith (sys_prefix w) "/System/Library/"
   then bin_py l = "/usr/local/bin" /\
        default_log_file l
        = os_path_join w (home_dir w) ["Library/Logs/pip.log"]
   else bin_py l = os_path_join w (sys_prefix w) ["bin"] /\
        default_log_file l
        = os_path_join w (home_dir w) [".pip"; "pip.log"]).
Proof.
  intros Hinit Hwin. pose proof (module_init_platform_paths _ _ _ Hinit) as Hp.
  unfold platform_paths in Hp. rewrite Hwin in Hp.
  change (Str.take 16) with (Str.take (String.length "/System/Library/"))
    in Hp.
  change (Str.take 6) with (Str.take (String.length "darwin")) in Hp.
  rewrite !startswith_take in Hp.
  destruct (Str.startswith (sys_platform w) "darwin"
            && Str.startswith (sys_prefix w) "/System/Library/");
    simplify_eq; repeat split; done.
Qed.

Lemma module_init_posix_platform_paths_witness :
  let w := mac_framework_world linux_fs in
  exists l w',
    module_init w = (Ok l, w') /\
    bin_py l = "/usr/local/bin" /\
    default_log_file l = "/Users/alice/Library/Logs/pip.log" /\
    (bin_user l = os_path_join w (site_USER_SITE w) ["bin"] /\
     default_storage_dir l = os_path_join w (home_dir w) [".pip"] /\
     default_config_file l = os_path_join w (home_dir w) [".pip"; "pip.conf"] /\
     (if Str.startswith (sys_platform w) "darwin"
         && Str.startswith (sys_prefix w) "/System/Library/"
      then bin_py l = "/usr/local/bin" /\
           default_log_file l
           = os_path_join w (home_dir w) ["Library/Logs/pip.log"]
      else bin_py l = os_path_join w (sys_prefix w) ["bin"] /\
           default_log_file l
           = os_path_join w (home_dir w) [".pip"; "pip.log"])).
Proof.
  intros w. eexists _, _. split; [subst w; vm_compute; reflexivity |].
  split; [reflexivity |]. split; [reflexivity |].
  eapply (module_init_posix_platform_paths w); [| reflexivity].
  subst w. vm_compute. reflexivity.
Defined.

Lemma frame_paths w w' :
  frame w w' ->
  os_path_join w' = os_path_join w /\
  appdirs_site_config_dirs w' = appdirs_site_config_dirs w /\
  home_dir w' = home_dir w.
Proof. by intros (f & out & ->). Qed.

(** X12. On every platform the user's config file is the config basename
    ([pip.ini] on Windows, [pip.conf] elsewhere) in the storage directory
    ([pip] below the home directory on Windows, [.pip] elsewhere), and the
    site config files are that same basename in each of the site config
    directories, in their order. *)
Theorem module_init_config_files (w : World) (l : locations) (w' : World) :
  module_init w = (Ok l, w') ->
  default_config_basename l = (if WINDOWS w then "pip.ini" else "pip.conf") /\
  default_storage_dir l
  = os_path_join w (home_dir w) [if WINDOWS w then "pip" else ".pip"] /\
  default_config_file l
  = os_path_join w (default_storage_dir l) [default_config_basename l] /\
  site_config_files l
  = List.map (fun d => os_path_join w d [default_config_basename l])
      (appdirs_site_config_dirs w).
Proof.
  intros Hinit. pose proof (module_init_platform_paths _ _ _ Hinit) as Hp.
  destruct (module_init_steps _ _ _ Hinit) as (rr & Hraw & Hfields).
  destruct (Hfields l eq_refl) as (_ & Hsite & _).
  destruct (frame_paths _ _ (framed_raw_prefixes _ _ _ Hraw))
    as (Hjoin & Hdirs & _).
  rewrite Hjoin, Hdirs in Hsite.
  unfold platform_paths in Hp.
  destruct (WINDOWS w).
  - destruct (negb _); simplify_eq; repeat split; congruence.
  - destruct (_ && _); simplify_eq; repeat split; congruence.
Qed.

Lemma module_init_config_files_witness :
  let w := windows_world "C:\venv" (Some "C:\Python27") windows_fs in
  exists l w',
    module_init w = (Ok l, w') /\
    default_config_file l = "C:\Users\alice\pip\pip.ini" /\
    site_config_files l = ["C:\ProgramData\pip\pip.ini"] /\
    (default_config_basename l = (if WINDOWS w then "pip.ini" else "pip.conf")
     /\
     default_storage_dir l
     = os_path_join w (home_dir w) [if WINDOWS w then "pip" else ".pip"] /\
     default_config_file l
     = os_path_join w (default_storage_dir l) [default_config_basename l] /\
     site_config_files l
     = List.map (fun d => os_path_join w d [default_config_basename l])
         (appdirs_site_config_dirs w)).
Proof.
  intros w. eexists _, _. split; [subst w; vm_compute; reflexivity |].
  split; [reflexivity |]. split; [reflexivity |].
  eapply (module_init_config_files w). subst w. vm_compute. reflexivity.
Defined.

(** X13. [CA_BUNDLE_PATH] is the first of the candidate bundle paths, in
    the order of [CA_BUNDLE_PATHS], that exists when the module is
    imported - every candidate before it is missing - and [None] when none
    of them exists. *)
Theorem module_init_first_existing_bundle (w : World) (l : locations)
    (w' : World) :
  module_init w = (Ok l, w') ->
  match CA_BUNDLE_PATH l with
  | Some p =>
      exists before after,
        CA_BUNDLE_PATHS = (before ++ p :: after)%list /\
        os_path_exists w p = true /\
        Forall (fun q => os_path_exists w q = false) before
  | None => Forall (fun q => os_path_exists w q = false) CA_BUNDLE_PATHS
  end.
Proof.
  intros Hinit.
  destruct (module_init_steps _ _ _ Hinit) as (rr & _ & Hfields).
  destruct (Hfields l eq_refl) as (-> & _).
  destruct (List.find _ _) as [p|] eqn:Hfind.
  - by apply find_first.
  - apply List.Forall_forall. intros q Hq.
    by apply (List.find_none _ _ Hfind).
Qed.

Lemma module_init_first_existing_bundle_witness :
  let w := linux_world two_bundles_fs in
  exists l w',
    module_init w = (Ok l, w') /\
    CA_BUNDLE_PATH l = Some "/etc/pki/tls/certs/ca-bundle.crt" /\
    match CA_BUNDLE_PATH l with
    | Some p =>
        exists before after,
          CA_BUNDLE_PATHS = (before ++ p :: after)%list /\
          os_path_exists w p = true /\
          Forall (fun q => os_path_exists w q = false) before
    | None => Forall (fun q => os_path_exists w q = false) CA_BUNDLE_PATHS
    end.
Proof.
  intros w. eexists _, _. split; [subst w; vm_compute; reflexivity |].
  split; [reflexivity |].
  eapply (module_init_first_existing_bundle w). subst w.
  vm_compute. reflexivity.
Defined.

(** ** More on the virtualenv tests *)

(** X14. [running_under_virtualenv()] is true exactly when the
    interpreter has a [real_prefix] attribute, or has a [base_prefix]
    attribute that differs from [sys.prefix].  An interpreter with neither
    attribute is never in a virtualenv, whatever its [sys.prefix]. *)
Theorem running_under_virtualenv_iff (w : World) :
  (running_under_virtualenv w = true <->
   is_Some (sys_real_prefix w) \/
   exists b, sys_base_prefix w = Some b /\ sys_prefix w <> b) /\
  (sys_real_prefix w = None -> sys_base_prefix w = None ->
   running_under_virtualenv w = false).
Proof.
  unfold running_under_virtualenv, has_real_prefix, base_prefix. split.
  - destruct (sys_real_prefix w) as [real|]; [by split; eauto |].
    destruct (sys_base_prefix w) as [b|]; simpl.
    + destruct (String.eqb_spec (sys_prefix w) b) as [Heq | Hne]; simpl.
      * split; [done |]. intros [[? [=]] | (? & [= <-] & ?)]. done.
      * split; [| done]. intros _. right. eauto.
    + rewrite String.eqb_refl. simpl. split; [done |].
      intros [[? [=]] | (? & [=] & _)].
  - intros -> ->. simpl. by rewrite String.eqb_refl.
Qed.

Lemma running_under_virtualenv_iff_witness :
  let w := linux_world linux_fs in
  running_under_virtualenv w = false.
Proof.
  intros w. apply (proj2 (running_under_virtualenv_iff w)); reflexivity.
Defined.

Lemma os_path_abspath_raises w p e :
  os_path_abspath w p = Raise e -> e = OSError /\ cwd w = None.
Proof.
  unfold os_path_abspath, os_path.
  destruct (WINDOWS w); simpl;
    [unfold ntpath.abspath | unfold posixpath.abspath];
    repeat case_match; by intros [= <-].
Qed.

(** X15. [virtualenv_no_global()] only reads: the world is left as it
    was.  It returns [True] exactly when [site.__file__] can be made
    absolute, the interpreter runs in a virtualenv and
    [no-global-site-packages.txt] next to the site module is a regular
    file; any other call returns [None] or, when the working directory is
    gone, raises [OSError].  It never returns [False]. *)
Theorem virtualenv_no_global_result (w : World) :
  snd (virtualenv_no_global w) = w /\
  (fst (virtualenv_no_global w) = Ok (PyBool true) <->
   exists site_abs,
     os_path_abspath w (site_file w) = Ok site_abs /\
     running_under_virtualenv w = true /\
     os_path_isfile w
       (os_path_join w (os_path_dirname w site_abs)
          ["no-global-site-packages.txt"]) = true) /\
  (fst (virtualenv_no_global w) = Ok (PyBool true) \/
   fst (virtualenv_no_global w) = Ok PyNone \/
   fst (virtualenv_no_global w) = Raise OSError /\ cwd w = None).
Proof.
  unfold virtualenv_no_global. run.
  destruct (os_path_abspath w (site_file w)) as [site_abs|e] eqn:Habs.
  - destruct (running_under_virtualenv w); simpl.
    + destruct (os_path_isfile w _) eqn:Hfile; simpl.
      * split; [done |]. split; [| by left]. split; [| done].
        intros _. by exists site_abs.
      * split; [done |]. split; [| by right; left]. split; [done |].
        intros (? & [= <-] & _ & ?). congruence.
    + split; [done |]. split; [| by right; left]. split; [done |].
      by intros (? & _ & ? & _).
  - simpl. destruct (os_path_abspath_raises _ _ _ Habs) as [-> Hcwd].
    split; [done |]. split; [| by right; right]. split; [done |].
    by intros (? & [=] & _).
Qed.

(** ** More on distutils_scheme *)

Lemma lib_scheme_other i key :
  key <> "purelib" -> key <> "platlib" ->
  lib_scheme i !! key = base_scheme i !! key.
Proof.
  intros Hpure Hplat. unfold lib_scheme. destruct (decide _); [| done].
  by rewrite !lookup_insert_ne.
Qed.

Section distutils_scheme_more.

Variable new_install : string -> M install_command.
Variable finalize_options : install_command -> M install_command.

Local Abbreviation scheme_of' :=
  (distutils_scheme new_install finalize_options).

(** X16. [distutils_scheme] passes the scripts and data roles of distutils
    through untouched.  When [install_lib] is [None] the purelib and
    platlib roles are the ones of distutils too, and outside a virtualenv
    so is the headers role, with or without a [root]. *)
Theorem distutils_scheme_keeps_distutils_roles
    (dist_name : string) (user : bool) (home root : option string)
    (w w1 w2 w' : World) (i0 i : install_command)
    (scheme : gmap string pyval) :
  new_install dist_name w = (Ok i0, w1) ->
  finalize_options
    (set_overrides (PyBool user) (of_opt home) (of_opt root) i0) w1
  = (Ok i, w2) ->
  scheme_of' dist_name user home root w = (Ok scheme, w') ->
  scheme !! "scripts" = Some (install_scripts i) /\
  scheme !! "data" = Some (install_data i) /\
  (install_lib i = PyNone ->
   scheme !! "purelib" = Some (install_purelib i) /\
   scheme !! "platlib" = Some (install_platlib i)) /\
  (running_under_virtualenv w2 = false ->
   scheme !! "headers" = Some (install_headers i)).
Proof.
  intros Hnew Hfin.
  rewrite (distutils_scheme_run _ _ _ _ _ _ _ _ _ _ _ Hnew Hfin).
  assert (lib_scheme i !! "scripts" = Some (install_scripts i)) as Hscripts
    by (by rewrite lib_scheme_other).
  assert (lib_scheme i !! "data" = Some (install_data i)) as Hdata
    by (by rewrite lib_scheme_other).
  assert (lib_scheme i !! "headers" = Some (install_headers i)) as Hheaders
    by (by rewrite lib_scheme_other).
  assert (install_lib i = PyNone ->
          lib_scheme i !! "purelib" = Some (install_purelib i) /\
          lib_scheme i !! "platlib" = Some (install_platlib i)) as Hlib.
  { intros Hnone. unfold lib_scheme. by rewrite decide_False by naive_solver. }
  intros Hrun.
  assert (forall key, key <> "headers" ->
                      scheme !! key = lib_scheme i !! key) as Hother.
  { intros key Hkey. repeat case_match; simplify_eq;
      by rewrite ?lookup_insert_ne. }
  split; [by rewrite Hother |]. split; [by rewrite Hother |]. split.
  - intros Hnone. rewrite !Hother by done. by apply Hlib.
  - intros Hvenv. rewrite Hvenv in Hrun. by simplify_eq.
Qed.

(** X17. [distutils_scheme] adds no failure of its own but one: an
    exception of the install command (from its creation or from
    [finalize_options]) comes out as it is, and otherwise the call raises
    only [OSError], in a virtualenv with a [root], when the working
    directory is gone. *)
Theorem distutils_scheme_errors
    (dist_name : string) (user : bool) (home root : option string)
    (w w' : World) (e : exn) :
  scheme_of' dist_name user home root w = (Raise e, w') ->
  new_install dist_name w = (Raise e, w') \/
  (exists i0 w1,
     new_install dist_name w = (Ok i0, w1) /\
     finalize_options
       (set_overrides (PyBool user) (of_opt home) (of_opt root) i0) w1
     = (Raise e, w')) \/
  (e = OSError /\ running_under_virtualenv w' = true /\ is_Some root /\
   cwd w' = None).
Proof.
  intros Hrun.
  destruct (new_install dist_name w) as [[i0|e0] w1] eqn:Hnew.
  - destruct (finalize_options
                (set_overrides (PyBool user) (of_opt home) (of_opt root) i0)
                w1) as [[i|e1] w2] eqn:Hfin.
    + rewrite (distutils_scheme_run _ _ _ _ _ _ _ _ _ _ _ Hnew Hfin) in Hrun.
      right. right.
      destruct (running_under_virtualenv w2) eqn:Hvenv; [| done].
      destruct root as [r|]; [| done].
      destruct (os_path_abspath w2 _) as [abs|e2] eqn:Habs; [done |].
      simplify_eq.
      destruct (os_path_abspath_raises _ _ _ Habs) as [-> Hcwd]. eauto.
    + right. left. unfold distutils_scheme in Hrun. run.
      rewrite Hnew, Hfin in Hrun. simplify_eq. eauto.
  - left. unfold distutils_scheme in Hrun. run. rewrite Hnew in Hrun.
    by simplify_eq.
Qed.

(** X18. An empty [root] is not [None]: like [None] it leaves the root of
    the install command as configured ([root or i.root]), but in a
    virtualenv it still re-roots the headers.  Under posixpath the headers
    entry is then the absolute venv headers path without its leading
    [/], where [root = None] gives the venv headers path itself. *)
Theorem distutils_scheme_empty_root
    (dist_name : string) (user : bool) (home : option string)
    (w w1 w2 : World) (i0 i : install_command) (abs : string) :
  new_install dist_name w = (Ok i0, w1) ->
  finalize_options
    (set_overrides (PyBool user) (of_opt home) (of_opt (Some "")) i0) w1
  = (Ok i, w2) ->
  running_under_virtualenv w2 = true ->
  WINDOWS w2 = false -> cwd_absolute w2 ->
  os_path_abspath w2 (venv_headers w2 dist_name) = Ok abs ->
  set_overrides (PyBool user) (of_opt home) (of_opt (Some "")) i0
  = set_overrides (PyBool user) (of_opt home) (of_opt None) i0 /\
  abs = String "/" (Str.drop 1 abs) /\
  scheme_entry "headers" (scheme_of' dist_name user home (Some "") w)
  = Some (PyStr (Str.drop 1 abs)) /\
  scheme_entry "headers" (scheme_of' dist_name user home None w)
  = Some (PyStr (venv_headers w2 dist_name)).
Proof.
  intros Hnew Hfin Hvenv Hwin Hcwd Habs. split; [done |].
  assert (finalize_options
            (set_overrides (PyBool user) (of_opt home) (of_opt None) i0) w1
          = (Ok i, w2)) as Hfin' by done.
  split; [by apply (posix_abspath_leading_sep w2 (venv_headers w2 dist_name)) |].
  unfold scheme_entry.
  rewrite (distutils_scheme_run _ _ _ _ _ _ _ _ _ _ _ Hnew Hfin),
    (distutils_scheme_run _ _ _ _ _ _ _ _ _ _ _ Hnew Hfin'), Hvenv, Habs.
  simpl. rewrite !lookup_insert_eq. split; [| done].
  unfold os_path_join, os_path. rewrite Hwin. simpl.
  unfold posixpath.join. by destruct (Str.startswith _ _).
Qed.

End distutils_scheme_more.

Lemma distutils_scheme_keeps_distutils_roles_witness :
  let w := linux_world linux_fs in
  let i := sample_install PyNone
             (PyStr "/usr/lib/python2.7/site-packages")
             "/usr/include/python2.7/pkg" "/usr/bin" "/usr" in
  let scheme := sample_scheme false None None w in
  scheme !! "scripts" = Some (install_scripts i) /\
  scheme !! "data" = Some (install_data i) /\
  (install_lib i = PyNone ->
   scheme !! "purelib" = Some (install_purelib i) /\
   scheme !! "platlib" = Some (install_platlib i)) /\
  (running_under_virtualenv w = false ->
   scheme !! "headers" = Some (install_headers i)).
Proof.
  intros w i scheme.
  apply (distutils_scheme_keeps_distutils_roles sample_new_install
           sample_finalize_options "pkg" false None None w w w w
           sample_fresh_install i scheme);
    subst w i scheme; vm_compute; reflexivity.
Defined.

Lemma distutils_scheme_errors_witness :
  let w := linux_world linux_fs in
  let e := DistutilsError
    "can't combine user with prefix, exec_prefix/home, or install_(plat)base" in
  sample_new_install "pkg" w = (Raise e, w) \/
  (exists i0 w1,
     sample_new_install "pkg" w = (Ok i0, w1) /\
     sample_finalize_options
       (set_overrides (PyBool true) (of_opt (Some "/opt/pkgs")) (of_opt None)
          i0) w1
     = (Raise e, w)) \/
  (e = OSError /\ running_under_virtualenv w = true /\
   is_Some (@None string) /\ cwd w = None).
Proof.
  intros w e.
  apply (distutils_scheme_errors sample_new_install sample_finalize_options
           "pkg" true (Some "/opt/pkgs") None w w e).
  reflexivity.
Defined.

Lemma distutils_scheme_empty_root_witness :
  let w := linux_venv_world "/tmp/venv" symlinked_tmp_fs in
  let abs := "/tmp/venv/include/site/python2.7/pkg" in
  set_overrides (PyBool false) (of_opt None) (of_opt (Some ""))
    sample_fresh_install
  = set_overrides (PyBool false) (of_opt None) (of_opt None)
      sample_fresh_install /\
  abs = String "/" (Str.drop 1 abs) /\
  scheme_entry "headers"
    (distutils_scheme sample_new_install sample_finalize_options
       "pkg" false None (Some "") w)
  = Some (PyStr (Str.drop 1 abs)) /\
  scheme_entry "headers"
    (distutils_scheme sample_new_install sample_finalize_options
       "pkg" false None None w)
  = Some (PyStr (venv_headers w "pkg")).
Proof.
  intros w abs.
  apply (distutils_scheme_empty_root sample_new_install
           sample_finalize_options "pkg" false None w w w
           sample_fresh_install
           (sample_install PyNone
              (PyStr "/tmp/venv/lib/python2.7/site-packages")
              "/tmp/venv/include/python2.7/pkg" "/tmp/venv/bin" "/tmp/venv")
           abs);
    try (subst w abs; vm_compute; reflexivity).
  intros c [= <-]. reflexivity.
Defined.

(** With an empty [root] the headers entry has lost its leading [/]. *)
Example distutils_scheme_empty_root_headers :
  scheme_entry "headers"
    (distutils_scheme sample_new_install sample_finalize_options
       "pkg" false None (Some "")
       (linux_venv_world "/tmp/venv" symlinked_tmp_fs))
  = Some (PyStr "tmp/venv/include/site/python2.7/pkg").
Proof. vm_compute. reflexivity. Qed.
